(** * pyDAEDALUS: the validation and orchestration layer, embedded in Rocq

    The development follows the two source modules of the package:
    [exceptions.py] (the error classes and the three validators) and
    [pydaedalus.py] (the result container, the helical table, the scaffold
    resolver and [design_structure]).

    Python values are modelled as follows.
    - [str] is [string]: a sequence of 8-bit characters.  [upper], [lower]
      and [strip] act on the ASCII range.
    - [int] is [Z].
    - [float] appears in one expression, [helical_turns * 10.5], and one
      format, [:.1f]; both are modelled with the round-to-nearest-even
      53-bit significand of binary64.
    - exceptions are values of type [exn], the instances of [Exception]
      (what [except Exception] catches; [KeyboardInterrupt] and
      [SystemExit] are no errors and are left out); a call that can raise
      returns a [result].
    - the file system and the console are an explicit state, threaded
      through the code by a state-and-exception monad. *)

From Stdlib Require Import ZArith Lia List Ascii String Bool Sorted.
From stdpp Require Import base option strings pretty gmap.

Local Open Scope string_scope.
Local Open Scope Z_scope.

(** ** Python string methods *)

Module PyStr.

Definition is_lower (c : ascii) : bool :=
  ((97 <=? nat_of_ascii c) && (nat_of_ascii c <=? 122))%nat.

Definition is_upper (c : ascii) : bool :=
  ((65 <=? nat_of_ascii c) && (nat_of_ascii c <=? 90))%nat.

Definition upper_char (c : ascii) : ascii :=
  if is_lower c then ascii_of_nat (nat_of_ascii c - 32) else c.

Definition lower_char (c : ascii) : ascii :=
  if is_upper c then ascii_of_nat (nat_of_ascii c + 32) else c.

Fixpoint smap (f : ascii -> ascii) (s : string) : string :=
  match s with
  | EmptyString => EmptyString
  | String c s' => String (f c) (smap f s')
  end.

(** [s.upper()] and [s.lower()]. *)
Definition upper : string -> string := smap upper_char.
Definition lower : string -> string := smap lower_char.

(** [pat in s]. *)
Fixpoint contains (pat s : string) : bool :=
  if String.prefix pat s then true
  else match s with
       | EmptyString => false
       | String _ s' => contains pat s'
       end.

(** The characters [str.strip()] removes: space, the controls 9-13 and
    the separators 28-31. *)
Definition is_space (c : ascii) : bool :=
  let n := nat_of_ascii c in
  ((n =? 32) || ((9 <=? n) && (n <=? 13)) || ((28 <=? n) && (n <=? 31)))%nat.

Fixpoint lstrip (s : string) : string :=
  match s with
  | EmptyString => EmptyString
  | String c s' => if is_space c then lstrip s' else s
  end.

Fixpoint rstrip (s : string) : string :=
  match s with
  | EmptyString => EmptyString
  | String c s' =>
      match rstrip s' with
      | EmptyString => if is_space c then EmptyString else String c EmptyString
      | r => String c r
      end
  end.

Definition strip (s : string) : string := lstrip (rstrip s).

(** [s[:n]]. *)
Fixpoint take (n : nat) (s : string) : string :=
  match n, s with
  | S n', String c s' => String c (take n' s')
  | _, _ => EmptyString
  end.

Definition chars (s : string) : list ascii := list_ascii_of_string s.

(** [sep.join(l)]. *)
Definition join (sep : string) (l : list string) : string := String.concat sep l.

(** The lines a text file yields when iterated: every line keeps its
    terminator, and a final newline opens no further line. *)
Fixpoint lines (s : string) : list string :=
  match s with
  | EmptyString => []
  | String c s' =>
      if Ascii.eqb c "010"%char then String c EmptyString :: lines s'
      else match lines s' with
           | [] => [String c EmptyString]
           | l :: ls => String c l :: ls
           end
  end.

(** [sorted(set(l))] on characters: increasing code points, no repeats. *)
Fixpoint insert_sorted (c : ascii) (l : list ascii) : list ascii :=
  match l with
  | [] => [c]
  | d :: l' =>
      if (nat_of_ascii c <? nat_of_ascii d)%nat then c :: l
      else if Ascii.eqb c d then l
      else d :: insert_sorted c l'
  end.

Definition sorted_set (l : list ascii) : list ascii :=
  foldr insert_sorted [] l.

Definition mem (c : ascii) (l : list ascii) : bool :=
  existsb (Ascii.eqb c) l.

(** [str(n)] and [f"{n}"] for an [int]. *)
Definition of_int (n : Z) : string := pretty n.

End PyStr.

(** ** binary64 arithmetic on integers and half-integers *)

Module Binary64.

(** Round an integer to the nearest integer with at most 53 significant
    bits, ties to the even significand. *)
Definition rne53 (n : Z) : Z :=
  let a := Z.abs n in
  if a <? 2 ^ 53 then n
  else
    let k := Z.log2 a - 52 in
    let q := Z.shiftr a k in
    let r := Z.land a (Z.ones k) in
    let half := Z.shiftl 1 (k - 1) in
    let q' := if (half <? r) || ((r =? half) && Z.odd q) then q + 1 else q in
    Z.sgn n * Z.shiftl q' k.

(** [float(n)]: [None] stands for OverflowError. *)
Definition of_int (n : Z) : option Z :=
  let r := rne53 n in
  if Z.abs r <? 2 ^ 1024 then Some r else None.

(** [x * 10.5] for an integer-valued double [x]; the product is a
    multiple of one half and is returned doubled.  [None] stands for an
    infinite product. *)
Definition mul_10_5_twice (x : Z) : option Z :=
  let r := rne53 (21 * x) in
  if Z.abs r <? 2 ^ 1025 then Some r else None.

(** [math.floor] of a double given doubled. *)
Definition floor_twice (t : Z) : Z := t / 2.

(** [format(n, ".1f")] for an [int]: the digits of the double nearest to
    [n], then one decimal.  It is applied to the sum of the edge lengths
    reported by the engine, nucleotide counts far inside the binary64
    range, where the conversion to [float] always succeeds. *)
Definition format_1f (n : Z) : string := PyStr.of_int (rne53 n) +:+ ".0".

End Binary64.

(** ** Exceptions and the result of a call *)

(** The classes of [exceptions.py]. *)
Inductive domain_class :=
| CPyDAEDALUSError | CGeometryFileError | CScaffoldSequenceError
| CHelicalParameterError | CDesignConstraintError | CStapleGenerationError
| COutputDirectoryError.

(** The built-in subclasses of [Exception] this layer meets; [CException]
    is any other subclass of [Exception]. *)
Inductive builtin_class :=
| CAssertionError | CPermissionError | CFileNotFoundError | CFileExistsError
| CIsADirectoryError | CNotADirectoryError | COSError
| COverflowError | CTypeError | CKeyError | CException.

(** An exception object.  A domain error keeps the three attributes that
    [PyDAEDALUSError.__init__] stores; a built-in error keeps its text. *)
Inductive exn :=
| Domain (c : domain_class) (message technical_details : string)
         (suggestions : list string)
| Builtin (c : builtin_class) (text : string).

Inductive result (A : Type) :=
| Ok (a : A)
| Raise (e : exn).
Arguments Ok {A} a.
Arguments Raise {A} e.

#[export] Instance domain_class_eq_dec : EqDecision domain_class.
Proof. solve_decision. Defined.
#[export] Instance builtin_class_eq_dec : EqDecision builtin_class.
Proof. solve_decision. Defined.

Definition nl : string := String "010"%char EmptyString.

(** [isinstance(e, PermissionError)], [isinstance(e, OSError)], ... *)
Definition is_builtin (k : builtin_class) (e : exn) : bool :=
  match e with
  | Builtin c _ => bool_decide (c = k)
  | Domain _ _ _ _ => false
  end.

Definition is_OSError (e : exn) : bool :=
  match e with
  | Builtin (CPermissionError | CFileNotFoundError | CFileExistsError
            | CIsADirectoryError | CNotADirectoryError | COSError) _ => true
  | _ => false
  end.

Definition is_domain (k : domain_class) (e : exn) : bool :=
  match e with
  | Domain c _ _ _ => bool_decide (c = k)
  | Builtin _ _ => false
  end.

Definition exn_message (e : exn) : string :=
  match e with Domain _ m _ _ => m | Builtin _ t => t end.

Definition exn_technical_details (e : exn) : string :=
  match e with Domain _ _ t _ => t | Builtin _ _ => "" end.

Definition exn_suggestions (e : exn) : list string :=
  match e with Domain _ _ _ s => s | Builtin _ _ => [] end.

(** The numbered suggestion lines of [PyDAEDALUSError.__init__]. *)
Fixpoint numbered (i : Z) (l : list string) : string :=
  match l with
  | [] => ""
  | s :: l' => nl +:+ "  " +:+ PyStr.of_int i +:+ ". " +:+ s +:+ numbered (i + 1) l'
  end.

(** The text [PyDAEDALUSError.__init__] hands to [Exception.__init__]. *)
Definition full_message (message technical_details : string)
    (suggestions : list string) : string :=
  message
  +:+ (if bool_decide (technical_details = "") then ""
       else nl +:+ nl +:+ "Technical Details:" +:+ nl +:+ technical_details)
  +:+ (match suggestions with
       | [] => ""
       | _ => nl +:+ nl +:+ "Suggestions to fix this:" +:+ numbered 1 suggestions
       end).

(** [str(e)]. *)
Definition str_exn (e : exn) : string :=
  match e with
  | Domain _ m t s => full_message m t s
  | Builtin _ t => t
  end.

Definition PyDAEDALUSError (message technical_details : string)
    (suggestions : list string) : exn :=
  Domain CPyDAEDALUSError message technical_details suggestions.

Definition GeometryFileError (filename issue technical_details : string) : exn :=
  let suggestions :=
    [ "Check that the file '" +:+ filename +:+ "' exists and is readable";
      "Verify the file is in PLY format (see https://en.wikipedia.org/wiki/PLY_(file_format))";
      "Try opening the PLY file in a 3D viewer (like MeshLab) to verify it's valid";
      "Check the example PLY files in the repository for reference format" ] in
  let message := "Problem with geometry file '" +:+ filename +:+ "': " +:+ issue in
  Domain CGeometryFileError message technical_details suggestions.

Definition scaffold_suggestions : list string :=
  [ "Check that scaffold sequence file exists and contains valid nucleotides (A, T, G, C, U)";
    "Verify sequence length is sufficient for your geometry (typically 2x total edge length)";
    "Use 'M13.txt' or None to use default M13 scaffold sequence";
    "For large designs, pyDAEDALUS will generate random sequence automatically" ].

Definition ScaffoldSequenceError (issue sequence_info technical_details : string) : exn :=
  let message := "Scaffold sequence problem: " +:+ issue in
  let message :=
    if bool_decide (sequence_info = "") then message
    else message +:+ " (" +:+ sequence_info +:+ ")" in
  Domain CScaffoldSequenceError message technical_details scaffold_suggestions.

Definition HelicalParameterError (helical_form : string)
    (helical_turns min_required : Z) : exn :=
  let suggestions :=
    [ "Use at least " +:+ PyStr.of_int min_required +:+ " helical turns for " +:+ helical_form;
      "A-form (RNA): minimum 4 turns, 11 bp/turn → " +:+ PyStr.of_int (4 * 11) +:+ " bp minimum edge";
      "B-form (DNA): minimum 3 turns, 10.5 bp/turn → " +:+ PyStr.of_int (Z.quot (3 * 21) 2) +:+ " bp minimum edge";
      "Consider using longer edges or switching helical form";
      "Check that your geometry has sufficiently long edges for the chosen parameters" ] in
  let message :=
    "Invalid helical parameters: " +:+ helical_form +:+ " with "
    +:+ PyStr.of_int helical_turns +:+ " turns (minimum "
    +:+ PyStr.of_int min_required +:+ " required)" in
  let technical_details :=
    "Helical form '" +:+ helical_form +:+ "' requires minimum "
    +:+ PyStr.of_int min_required +:+ " helical turns. "
    +:+ "This ensures sufficient nucleotides for proper crossover formation and "
    +:+ "structural stability." in
  Domain CHelicalParameterError message technical_details suggestions.

Definition DesignConstraintError (constraint geometry_info technical_details : string) : exn :=
  let suggestions :=
    [ "Try increasing the number of helical turns per edge";
      "Use a simpler geometry with fewer faces or shorter edges";
      "Check that the geometry is a valid 3D polyhedron";
      "Verify the PLY file defines a closed, manifold surface";
      "Consider using B-form instead of A-form for more flexibility" ] in
  let message := "Design constraint violation: " +:+ constraint in
  let message :=
    if bool_decide (geometry_info = "") then message
    else message +:+ nl +:+ "Geometry: " +:+ geometry_info in
  Domain CDesignConstraintError message technical_details suggestions.

Definition StapleGenerationError (stage technical_details : string) : exn :=
  let suggestions :=
    [ "Check that scaffold sequence is long enough for the design";
      "Verify geometry has reasonable edge length distribution";
      "Try using double crossover staples instead of single crossover";
      "Use a different scaffold sequence or let pyDAEDALUS generate one";
      "Simplify the geometry to reduce design complexity" ] in
  let message := "Staple generation failed at stage: " +:+ stage in
  Domain CStapleGenerationError message technical_details suggestions.

Definition OutputDirectoryError (directory issue : string) : exn :=
  let suggestions :=
    [ "Check that you have write permissions for '" +:+ directory +:+ "'";
      "Verify the parent directory exists";
      "Try using a different output directory";
      "Check available disk space";
      "Ensure the path doesn't contain invalid characters" ] in
  let message := "Output directory problem: " +:+ issue in
  let technical_details := "Cannot access or create directory: " +:+ directory in
  Domain COutputDirectoryError message technical_details suggestions.

(** ** [pathlib] pure paths (POSIX flavour) *)

Module PurePath.

(** A parsed path: the root ([""], ["/"] or ["//"]) and the components
    after it. *)
Record t := mk { root : string; parts : list string }.

#[export] Instance eq_dec : EqDecision t.
Proof. solve_decision. Defined.

Fixpoint leading_slashes (s : string) : nat :=
  match s with
  | String c s' => if Ascii.eqb c "/"%char then S (leading_slashes s') else O
  | EmptyString => O
  end.

Definition splitroot (s : string) : string :=
  match leading_slashes s with
  | O => ""
  | 2%nat => "//"
  | _ => "/"
  end.

(** [s.split("/")], most recent piece kept reversed in [cur]. *)
Fixpoint split_go (cur s : string) : list string :=
  match s with
  | EmptyString => [String.rev cur]
  | String c s' =>
      if Ascii.eqb c "/"%char then String.rev cur :: split_go EmptyString s'
      else split_go (String c cur) s'
  end.

Definition keep_part (x : string) : bool :=
  negb (bool_decide (x = "")) && negb (bool_decide (x = ".")).

Definition components (s : string) : list string :=
  List.filter keep_part (split_go EmptyString s).

(** [Path(s)]. *)
Definition Path (s : string) : t := mk (splitroot s) (components s).

(** [str(p)]. *)
Definition str (p : t) : string :=
  match root p, parts p with
  | EmptyString, [] => "."
  | r, ps => r +:+ PyStr.join "/" ps
  end.

(** [p / s]: an absolute right operand replaces the left one. *)
Definition joinpath (p : t) (s : string) : t :=
  let q := Path s in
  if bool_decide (root q = "") then mk (root p) (parts p ++ parts q) else q.

(** [p.name]. *)
Definition name (p : t) : string := List.last (parts p) "".

(** [p.parent]. *)
Definition parent (p : t) : t := mk (root p) (List.removelast (parts p)).

(** [s.rfind(".")], or [None] when there is no dot. *)
Fixpoint rfind_dot (s : string) : option nat :=
  match s with
  | EmptyString => None
  | String c s' =>
      match rfind_dot s' with
      | Some i => Some (S i)
      | None => if Ascii.eqb c "."%char then Some O else None
      end
  end.

Fixpoint drop (n : nat) (s : string) : string :=
  match n, s with
  | S n', String _ s' => drop n' s'
  | _, _ => s
  end.

(** [p.suffix]. *)
Definition suffix (p : t) : string :=
  let nm := name p in
  match rfind_dot nm with
  | Some i =>
      if ((0 <? i) && (i <? String.length nm - 1))%nat then drop i nm else ""
  | None => ""
  end.

Definition is_absolute (p : t) : bool := negb (bool_decide (root p = "")).

End PurePath.

Abbreviation Path := PurePath.Path.
Infix "//" := PurePath.joinpath (at level 40, left associativity).

(** ** The file system and the console *)

Inductive fnode :=
| Dir
| File (content : string).

#[export] Instance fnode_eq_dec : EqDecision fnode.
Proof. solve_decision. Defined.

(** A file system without links.  [nodes] maps the components of an
    absolute location to what is there (the root is always a directory);
    [readable] and [writable] are the permissions of the running user
    ([writable] on a directory: entries may be added and removed);
    [read_fault] is a failure of the platform met while the content of a
    file is read and decoded, always a built-in exception; [free] counts
    the entries that can still be created. *)
Record fsys := mkfs {
  nodes : gmap (list string) fnode;
  readable : list string -> bool;
  writable : list string -> bool;
  read_fault : list string -> option (builtin_class * string);
  free : nat;
  cwd : list string
}.

(** What a call can observe and change: the file system and the lines
    written by [print]. *)
Record world := mkworld {
  fs : fsys;
  stdout : list string
}.

(** A statement or call: from a world to its outcome and the world after. *)
Definition M (A : Type) : Type := world -> result A * world.

Definition ret {A} (a : A) : M A := fun w => (Ok a, w).
Definition raise {A} (e : exn) : M A := fun w => (Raise e, w).
Definition bind {A B} (m : M A) (k : A -> M B) : M B :=
  fun w => match m w with
           | (Ok a, w') => k a w'
           | (Raise e, w') => (Raise e, w')
           end.
Definition lift {A} (r : result A) : M A := fun w => (r, w).
Definition get_fs : M fsys := fun w => (Ok (fs w), w).
Definition put_fs (f : fsys) : M unit := fun w => (Ok tt, mkworld f (stdout w)).
Definition print (line : string) : M unit :=
  fun w => (Ok tt, mkworld (fs w) (stdout w ++ [line])).

Notation "'let*' x := m 'in' k" := (bind m (fun x => k))
  (at level 10, x pattern, m at level 100, k at level 200).
Notation "'run' m 'then' k" := (bind m (fun _ => k))
  (at level 10, m at level 100, k at level 200).

(** [try: body  except ...: handler].  [handler e] is [None] when no
    [except] clause matches [e], which then propagates. *)
Definition try_except {A} (body : M A) (handler : exn -> option (M A)) : M A :=
  fun w => match body w with
           | (Ok a, w') => (Ok a, w')
           | (Raise e, w') =>
               match handler e with
               | Some h => h w'
               | None => (Raise e, w')
               end
           end.

(** [if c: raise e]. *)
Definition raise_if (c : bool) (e : exn) : M unit :=
  if c then raise e else ret tt.

Module OS.

(** The absolute location a path names for the running process. *)
Definition key (f : fsys) (p : PurePath.t) : list string :=
  if PurePath.is_absolute p then PurePath.parts p
  else cwd f ++ PurePath.parts p.

Definition node (f : fsys) (k : list string) : option fnode :=
  match k with
  | [] => Some Dir
  | _ => nodes f !! k
  end.

Definition quoted (p : PurePath.t) : string := "'" +:+ PurePath.str p +:+ "'".

(** [p.exists()]. *)
Definition exists_ (f : fsys) (p : PurePath.t) : bool :=
  bool_decide (is_Some (node f (key f p))).

(** [p.is_dir()]. *)
Definition is_dir (f : fsys) (p : PurePath.t) : bool :=
  bool_decide (node f (key f p) = Some Dir).

(** [p.absolute()]. *)
Definition absolute (f : fsys) (p : PurePath.t) : PurePath.t :=
  if PurePath.is_absolute p then p
  else PurePath.mk "/" (cwd f ++ PurePath.parts p).

(** [Path.cwd()]. *)
Definition getcwd (f : fsys) : PurePath.t := PurePath.mk "/" (cwd f).

(** [open(p, "r")] followed by [f.read()]. *)
Definition read_text (f : fsys) (p : PurePath.t) : result string :=
  let k := key f p in
  match node f k with
  | None =>
      Raise (Builtin CFileNotFoundError
               ("[Errno 2] No such file or directory: " +:+ quoted p))
  | Some Dir =>
      Raise (Builtin CIsADirectoryError
               ("[Errno 21] Is a directory: " +:+ quoted p))
  | Some (File c) =>
      if negb (readable f k)
      then Raise (Builtin CPermissionError
                    ("[Errno 13] Permission denied: " +:+ quoted p))
      else match read_fault f k with
           | Some (c', text) => Raise (Builtin c' text)
           | None => Ok c
           end
  end.

(** The names of the entries of a directory, for [p.iterdir()]. *)
Definition iterdir (f : fsys) (p : PurePath.t) : result (list string) :=
  let k := key f p in
  match node f k with
  | None =>
      Raise (Builtin CFileNotFoundError
               ("[Errno 2] No such file or directory: " +:+ quoted p))
  | Some (File _) =>
      Raise (Builtin CNotADirectoryError
               ("[Errno 20] Not a directory: " +:+ quoted p))
  | Some Dir =>
      if negb (readable f k)
      then Raise (Builtin CPermissionError
                    ("[Errno 13] Permission denied: " +:+ quoted p))
      else Ok (omap (fun kv : list string * fnode =>
                       match kv.1 with
                       | [] => None
                       | _ => if bool_decide (List.removelast kv.1 = k)
                              then Some (List.last kv.1 "") else None
                       end)
                    (map_to_list (nodes f)))
  end.

Definition with_nodes (f : fsys) (m : gmap (list string) fnode) (n : nat) : fsys :=
  mkfs m (readable f) (writable f) (read_fault f) n (cwd f).

(** [os.mkdir(p)]. *)
Definition mkdir1 (f : fsys) (p : PurePath.t) : result unit * fsys :=
  let k := key f p in
  let up := List.removelast k in
  match node f up with
  | None =>
      (Raise (Builtin CFileNotFoundError
                ("[Errno 2] No such file or directory: " +:+ quoted p)), f)
  | Some (File _) =>
      (Raise (Builtin CNotADirectoryError
                ("[Errno 20] Not a directory: " +:+ quoted p)), f)
  | Some Dir =>
      match node f k with
      | Some _ =>
          (Raise (Builtin CFileExistsError
                    ("[Errno 17] File exists: " +:+ quoted p)), f)
      | None =>
          if negb (writable f up)
          then (Raise (Builtin CPermissionError
                         ("[Errno 13] Permission denied: " +:+ quoted p)), f)
          else match free f with
               | O => (Raise (Builtin COSError
                                ("[Errno 28] No space left on device: " +:+ quoted p)), f)
               | S n => (Ok tt, with_nodes f (<[k := Dir]> (nodes f)) n)
               end
      end
  end.

(** [p.mkdir(parents=False, exist_ok=True)]: any [OSError] of
    [os.mkdir] is dropped when [p] is a directory. *)
Definition mkdir_exist_ok (f : fsys) (p : PurePath.t) : result unit * fsys :=
  match mkdir1 f p with
  | (Ok tt, f') => (Ok tt, f')
  | (Raise e, f') =>
      if is_OSError e && is_dir f' p then (Ok tt, f') else (Raise e, f')
  end.

(** [p.mkdir(parents=True, exist_ok=True)], by recursion on the
    components of [p] from the last one: on [FileNotFoundError] the
    parent is made first, unless [p] is its own parent. *)
Fixpoint mkdir_parents_rev (f : fsys) (r : string) (rev_parts : list string)
    : result unit * fsys :=
  let p := PurePath.mk r (List.rev rev_parts) in
  match mkdir1 f p with
  | (Ok tt, f') => (Ok tt, f')
  | (Raise e, f') =>
      if is_builtin CFileNotFoundError e then
        match rev_parts with
        | [] => (Raise e, f')
        | _ :: up =>
            match mkdir_parents_rev f' r up with
            | (Ok tt, f'') => mkdir_exist_ok f'' p
            | (Raise e', f'') => (Raise e', f'')
            end
        end
      else if is_OSError e && is_dir f' p then (Ok tt, f')
      else (Raise e, f')
  end.

Definition mkdir_parents (f : fsys) (p : PurePath.t) : result unit * fsys :=
  mkdir_parents_rev f (PurePath.root p) (List.rev (PurePath.parts p)).

(** [p.touch()]: an existing entry has its time stamp renewed when the
    user may write it; otherwise the file is opened for writing with
    [O_CREAT]. *)
Definition touch (f : fsys) (p : PurePath.t) : result unit * fsys :=
  let k := key f p in
  let up := List.removelast k in
  match node f k with
  | Some n =>
      if writable f k then (Ok tt, f)
      else match n with
           | Dir => (Raise (Builtin CIsADirectoryError
                              ("[Errno 21] Is a directory: " +:+ quoted p)), f)
           | File _ => (Raise (Builtin CPermissionError
                                 ("[Errno 13] Permission denied: " +:+ quoted p)), f)
           end
  | None =>
      match node f up with
      | None =>
          (Raise (Builtin CFileNotFoundError
                    ("[Errno 2] No such file or directory: " +:+ quoted p)), f)
      | Some (File _) =>
          (Raise (Builtin CNotADirectoryError
                    ("[Errno 20] Not a directory: " +:+ quoted p)), f)
      | Some Dir =>
          if negb (writable f up)
          then (Raise (Builtin CPermissionError
                         ("[Errno 13] Permission denied: " +:+ quoted p)), f)
          else match free f with
               | O => (Raise (Builtin COSError
                                ("[Errno 28] No space left on device: " +:+ quoted p)), f)
               | S n => (Ok tt, with_nodes f (<[k := File ""]> (nodes f)) n)
               end
      end
  end.

(** [p.unlink()]. *)
Definition unlink (f : fsys) (p : PurePath.t) : result unit * fsys :=
  let k := key f p in
  let up := List.removelast k in
  match k, node f k with
  | [], _ | _, Some Dir =>
      (Raise (Builtin CIsADirectoryError
                ("[Errno 21] Is a directory: " +:+ quoted p)), f)
  | _, None =>
      (Raise (Builtin CFileNotFoundError
                ("[Errno 2] No such file or directory: " +:+ quoted p)), f)
  | _, Some (File _) =>
      if negb (writable f up)
      then (Raise (Builtin CPermissionError
                     ("[Errno 13] Permission denied: " +:+ quoted p)), f)
      else (Ok tt, with_nodes f (delete k (nodes f)) (S (free f)))
  end.

(** A file-system call as a statement. *)
Definition call {A} (op : fsys -> result A * fsys) : M A :=
  fun w => let '(r, f') := op (fs w) in (r, mkworld f' (stdout w)).

Definition query {A} (op : fsys -> result A) : M A :=
  fun w => (op (fs w), w).

End OS.

(** ** [exceptions.py]: the validators *)

(** The suffix of a directory entry, from its name. *)
Definition entry_suffix (name : string) : string :=
  PurePath.suffix (PurePath.mk "" [name]).

Definition validate_geometry_file (geometry_file : PurePath.t) : M unit :=
  let* f := get_fs in
  run (if negb (OS.exists_ f geometry_file) then
         let parent_dir := PurePath.parent geometry_file in
         let* potential_files :=
           (if OS.exists_ f parent_dir then
              let* names := OS.query (fun f => OS.iterdir f parent_dir) in
              ret (List.filter
                     (fun n => bool_decide (PyStr.lower (entry_suffix n) = ".ply"))
                     names)
            else ret []) in
         let technical_details :=
           "File path: " +:+ PurePath.str (OS.absolute f geometry_file) in
         let technical_details :=
           match potential_files with
           | [] => technical_details
           | _ => technical_details +:+ nl +:+ nl +:+ "Found these PLY files in "
                  +:+ PurePath.str parent_dir +:+ ":" +:+ nl
                  +:+ PyStr.join nl (List.map (fun n => "  - " +:+ n) potential_files)
           end in
         raise (GeometryFileError (PurePath.str geometry_file)
                  "File not found" technical_details)
       else ret tt)
  then
  run raise_if
        (negb (bool_decide (PyStr.lower (PurePath.suffix geometry_file) = ".ply")))
        (GeometryFileError (PurePath.str geometry_file)
           ("Expected PLY file, got '" +:+ PurePath.suffix geometry_file +:+ "' file")
           "File must have .ply extension and be in PLY format")
  then
  try_except
    (let* text := OS.query (fun f => OS.read_text f geometry_file) in
     let content := PyStr.take 100 text in
     run raise_if (bool_decide (PyStr.strip content = ""))
           (GeometryFileError (PurePath.str geometry_file)
              "File is empty" "PLY file contains no data")
     then
     raise_if (negb (PyStr.contains "ply" (PyStr.lower content)))
       (GeometryFileError (PurePath.str geometry_file)
          "File doesn't appear to be in PLY format"
          ("Expected PLY header, found: " +:+ PyStr.take 50 content +:+ "...")))
    (fun e =>
       if is_builtin CPermissionError e then
         Some (raise (GeometryFileError (PurePath.str geometry_file)
                        "Permission denied"
                        "Cannot read file due to permission restrictions"))
       else
         Some (raise (GeometryFileError (PurePath.str geometry_file)
                        "Cannot read file"
                        ("Unexpected error: " +:+ str_exn e)))).

(** The scaffold argument when it is not [None]: a [str] or a [Path]. *)
Inductive scaffold_arg :=
| ScafStr (s : string)
| ScafPath (p : PurePath.t).

(** [str(scaffold_sequence)] and [Path(scaffold_sequence)]. *)
Definition scaffold_str (a : scaffold_arg) : string :=
  match a with ScafStr s => s | ScafPath p => PurePath.str p end.

Definition scaffold_path (a : scaffold_arg) : PurePath.t :=
  match a with ScafStr s => Path s | ScafPath p => p end.

(** [scaffold_sequence is None or scaffold_sequence == "M13.txt"]: a
    [Path] never equals a [str]. *)
Definition is_default_scaffold (a : option scaffold_arg) : bool :=
  match a with
  | None => true
  | Some (ScafStr s) => bool_decide (s = "M13.txt")
  | Some (ScafPath _) => false
  end.

Definition valid_bases : list ascii := PyStr.chars "ATGCU".

(** [sorted(set(sequence) - valid_bases)]. *)
Definition invalid_chars (sequence : string) : list ascii :=
  PyStr.sorted_set
    (List.filter (fun c => negb (PyStr.mem c valid_bases)) (PyStr.chars sequence)).

Definition char_str (c : ascii) : string := String c EmptyString.

Definition found_info (invalid : list ascii) : string :=
  "Found: " +:+ PyStr.join ", " (List.map char_str invalid).

Definition allowed_details (sequence : string) : string :=
  "Only A, T, G, C, U are allowed. Sequence length: "
  +:+ PyStr.of_int (Z.of_nat (String.length sequence)).

(** The test that sends the argument to the file branch. *)
Definition looks_like_file (a : scaffold_arg) : bool :=
  PyStr.contains "/" (scaffold_str a) || PyStr.contains "\" (scaffold_str a)
  || negb (bool_decide (PurePath.suffix (scaffold_path a) = "")).

Definition validate_scaffold_sequence (scaffold_sequence : option scaffold_arg)
    (project_name : string) : M unit :=
  if is_default_scaffold scaffold_sequence then ret tt
  else
    match scaffold_sequence with
    | None => ret tt
    | Some a =>
        let seq_path := scaffold_path a in
        let* f := get_fs in
        if looks_like_file a then
          run raise_if (negb (OS.exists_ f seq_path))
                (ScaffoldSequenceError "Scaffold sequence file not found"
                   ("File: " +:+ PurePath.str seq_path)
                   ("Attempted to read: " +:+ PurePath.str (OS.absolute f seq_path)))
          then
          try_except
            (let* text := OS.query (fun f => OS.read_text f seq_path) in
             let sequence := PyStr.strip text in
             run raise_if (bool_decide (sequence = ""))
                   (ScaffoldSequenceError "Scaffold sequence file is empty"
                      ("File: " +:+ PurePath.str seq_path) "")
             then
             let invalid := invalid_chars (PyStr.upper sequence) in
             raise_if (negb (bool_decide (invalid = [])))
               (ScaffoldSequenceError "Invalid characters in scaffold sequence"
                  (found_info invalid) (allowed_details sequence)))
            (fun e =>
               if is_builtin CPermissionError e then
                 Some (raise (ScaffoldSequenceError
                                "Cannot read scaffold sequence file"
                                ("Permission denied: " +:+ PurePath.str seq_path) ""))
               else None)
        else
          let sequence := PyStr.upper (scaffold_str a) in
          let invalid := invalid_chars sequence in
          raise_if (negb (bool_decide (invalid = [])))
            (ScaffoldSequenceError "Invalid characters in scaffold sequence string"
               (found_info invalid) (allowed_details sequence))
    end.

Definition validate_output_directory (output_dir : option PurePath.t)
    (project_name : string) : M PurePath.t :=
  let* f := get_fs in
  let output_dir :=
    match output_dir with None => OS.getcwd f | Some d => d end in
  let project_dir := output_dir // project_name in
  run try_except
        (OS.call (fun f => OS.mkdir_parents f project_dir))
        (fun e =>
           if is_builtin CPermissionError e then
             Some (raise (OutputDirectoryError (PurePath.str project_dir)
                            "Permission denied - cannot create directory"))
           else if is_OSError e then
             if PyStr.contains "No space left on device" (str_exn e) then
               Some (raise (OutputDirectoryError (PurePath.str project_dir)
                              "No space left on device"))
             else
               Some (raise (OutputDirectoryError (PurePath.str project_dir)
                              ("Cannot create directory: " +:+ str_exn e)))
           else None)
  then
  let test_file := project_dir // ".write_test" in
  run try_except
        (run OS.call (fun f => OS.touch f test_file) then
         OS.call (fun f => OS.unlink f test_file))
        (fun e =>
           if is_builtin CPermissionError e then
             Some (raise (OutputDirectoryError (PurePath.str project_dir)
                            "Directory exists but is not writable"))
           else None)
  then
  ret project_dir.

(** ** [pydaedalus.py] *)

(** [DesignResult]: three stored attributes; the artifact paths are
    properties computed from them. *)
Record DesignResult := mkDesignResult {
  project_name : string;
  output_dir : PurePath.t;
  full_file_name : string
}.

(** [DesignResult.__init__]. *)
Definition DesignResult_init (project_name output_dir full_file_name : string)
    : DesignResult :=
  mkDesignResult project_name (Path output_dir) full_file_name.

Definition csv_file (self : DesignResult) : PurePath.t :=
  output_dir self // ("staples_" +:+ full_file_name self +:+ ".csv").

Definition cndo_file (self : DesignResult) : PurePath.t :=
  output_dir self // (full_file_name self +:+ ".cndo").

Definition pdb_file (self : DesignResult) : PurePath.t :=
  output_dir self // (full_file_name self +:+ ".pdb").

Definition plot_file (self : DesignResult) : PurePath.t :=
  output_dir self // (full_file_name self +:+ ".png").

(** The dictionary returned by [_get_helical_config]. *)
Record HelicalConfig := mkHelicalConfig {
  min_edge_len : Z;
  h_form : bool;
  twist : Z
}.

(** [floor(helical_turns * 10.5)]: the turn count is converted to a
    double, multiplied, and the product is floored. *)
Definition floor_turns_10_5 (helical_turns : Z) : result Z :=
  match Binary64.of_int helical_turns with
  | None => Raise (Builtin COverflowError "int too large to convert to float")
  | Some x =>
      match Binary64.mul_10_5_twice x with
      | None => Raise (Builtin COverflowError
                         "cannot convert float infinity to integer")
      | Some t => Ok (Binary64.floor_twice t)
      end
  end.

(** [_get_helical_config]: [Ok None] is the implicit [None] returned when
    no branch matches. *)
Definition _get_helical_config (helical_form : string) (helical_turns : Z)
    : result (option HelicalConfig) :=
  if bool_decide (helical_form = "Aform") then
    Ok (Some (mkHelicalConfig (helical_turns * 11) true 1))
  else if bool_decide (helical_form = "Bform") then
    match floor_turns_10_5 helical_turns with
    | Ok n => Ok (Some (mkHelicalConfig n false 1))
    | Raise e => Raise e
    end
  else if bool_decide (helical_form = "Hybrid") then
    Ok (Some (mkHelicalConfig (helical_turns * 11) true 2))
  else if bool_decide (helical_form = "Twisted") then
    Ok (Some (mkHelicalConfig (helical_turns * 11) true 3))
  else Ok None.

(** A value that is either the empty list [[]] or a [str]. *)
Inductive seqval :=
| EmptyList
| Str (s : string).

(** Truth value and [len]. *)
Definition truthy (v : seqval) : bool :=
  match v with
  | EmptyList => false
  | Str s => negb (bool_decide (s = ""))
  end.

Definition len (v : seqval) : Z :=
  match v with
  | EmptyList => 0
  | Str s => Z.of_nat (String.length s)
  end.

Definition _process_scaffold_sequence (scaffold_sequence : option scaffold_arg)
    (project_name : string) (edge_length_vec : option (list Z))
    : M (seqval * seqval) :=
  if is_default_scaffold scaffold_sequence then ret (EmptyList, EmptyList)
  else
    match scaffold_sequence with
    | None => ret (EmptyList, EmptyList)
    | Some a =>
        let scaffold_path := scaffold_path a in
        let* f := get_fs in
        if OS.exists_ f scaffold_path then
          let* text := OS.query (fun f => OS.read_text f scaffold_path) in
          let scaf_seq :=
            PyStr.upper (PyStr.join "" (List.map PyStr.strip (PyStr.lines text))) in
          ret (Str scaf_seq, Str project_name)
        else
          let scaf_seq := PyStr.upper (scaffold_str a) in
          ret (Str scaf_seq, Str project_name)
    end.

(** *** The external engine *)

(** An object of the engine that this layer only passes on. *)
Definition handle := N.

(** The tuple returned by [ply_to_input]. *)
Record geometry := mkgeometry {
  coordinates : handle;
  edges : option (list handle);
  faces : handle;
  edge_length_vec : option (list Z);
  file_name : string;
  staple_name : string;
  singleXOs : Z
}.

(** The keyword arguments of [DX_cage_design]. *)
Record cage_args := mkcage_args {
  arg_coordinates : handle;
  arg_edges : option (list handle);
  arg_faces : handle;
  arg_edge_length_vec : option (list Z);
  arg_file_name : string;
  arg_staple_name : string;
  arg_singleXOs : Z;
  arg_scaf_seq : seqval;
  arg_scaf_name : seqval;
  arg_Aform : bool;
  arg_results_foldername : string;
  arg_twist : Z;
  arg_print_to_console : bool
}.

(** The three operations imported from [Automated_Design]; each may read
    and change the world and may raise. *)
Record engine := mkengine {
  ply_to_input : string -> string -> Z -> bool -> M geometry;
  DX_cage_design : cage_args -> M string;
  pdbgen : string -> bool -> string -> M unit
}.

(** The arguments of [design_structure]. *)
Record request := mkrequest {
  req_project_name : string;
  req_geometry_file : string;
  req_helical_form : string;
  req_helical_turns : Z;
  req_scaffold_sequence : option scaffold_arg;
  req_output_dir : option string;
  req_single_crossovers : bool;
  req_print_output : bool
}.

Definition valid_forms : list string := ["Aform"; "Bform"; "Hybrid"; "Twisted"].

(** [sorted(valid_forms)] is the order above. *)
Definition sorted_valid_forms : list string := valid_forms.

Definition min_turns (helical_form : string) : option Z :=
  if bool_decide (helical_form = "Aform") then Some 4
  else if bool_decide (helical_form = "Bform") then Some 3
  else if bool_decide (helical_form = "Hybrid") then Some 4
  else if bool_decide (helical_form = "Twisted") then Some 4
  else None.

(** [min_turns[helical_form]]. *)
Definition min_turns_item (helical_form : string) : M Z :=
  match min_turns helical_form with
  | Some n => ret n
  | None => raise (Builtin CKeyError ("'" +:+ helical_form +:+ "'"))
  end.

(** [helical_config[...]]: subscripting [None] raises. *)
Definition config_item (helical_config : option HelicalConfig) : M HelicalConfig :=
  match helical_config with
  | Some c => ret c
  | None => raise (Builtin CTypeError "'NoneType' object is not subscriptable")
  end.

Definition sum (l : list Z) : Z := List.fold_left Z.add l 0.

(** *** The stages of [design_structure] *)

(** The check of the helical form against [valid_forms]. *)
Definition check_helical_form (helical_form : string) : M unit :=
  raise_if (negb (bool_decide (helical_form ∈ valid_forms)))
    (PyDAEDALUSError
       ("Invalid helical_form '" +:+ helical_form +:+ "'")
       ("Valid options are: " +:+ PyStr.join ", " sorted_valid_forms)
       [ "Use one of the valid helical forms: " +:+ PyStr.join ", " sorted_valid_forms;
         "For DNA structures, use 'Bform'";
         "For RNA structures, use 'Aform'";
         "For advanced users: 'Hybrid' and 'Twisted' are A-form variants" ]).

(** The check of the turn count against [min_turns]. *)
Definition check_helical_turns (helical_form : string) (helical_turns : Z) : M unit :=
  let* required := min_turns_item helical_form in
  if helical_turns <? required then
    let* required := min_turns_item helical_form in
    raise (HelicalParameterError helical_form helical_turns required)
  else ret tt.

(** The call of [ply_to_input], with the evaluation of its arguments. *)
Definition geometry_body (E : engine) (geometry_file project_dir : PurePath.t)
    (helical_config : option HelicalConfig) : M geometry :=
  let* c1 := config_item helical_config in
  let* c2 := config_item helical_config in
  ply_to_input E (PurePath.str geometry_file) (PurePath.str project_dir)
    (min_edge_len c1) (h_form c2).

(** The [try] around [ply_to_input]. *)
Definition geometry_stage (E : engine) (geometry_file project_dir : PurePath.t)
    (helical_config : option HelicalConfig) : M geometry :=
  try_except
    (geometry_body E geometry_file project_dir helical_config)
    (fun e =>
       if is_builtin CAssertionError e then
         Some (raise (GeometryFileError (PurePath.str geometry_file)
                        "PLY file format validation failed"
                        ("The PLY file appears to be corrupted or malformed: "
                         +:+ str_exn e)))
       else if PyStr.contains "map" (str_exn e)
               && PyStr.contains "subscriptable" (str_exn e) then
         Some (raise (DesignConstraintError "Geometry processing failed"
                        ("File: " +:+ PurePath.str geometry_file)
                        ("This error often occurs with Python 3 compatibility issues in PLY processing. "
                         +:+ "The geometry may have edges that are too short or the PLY format may have issues.")))
       else
         Some (raise (DesignConstraintError "Geometry processing failed"
                        ("File: " +:+ PurePath.str geometry_file)
                        ("Unexpected error during PLY processing: " +:+ str_exn e)))).

(** The error of the length check. *)
Definition too_short_error (scaf_seq : seqval) (min_scaffold_length num_edges
    total_edge_length : Z) : exn :=
  ScaffoldSequenceError "Scaffold sequence too short"
    ("Provided: " +:+ PyStr.of_int (len scaf_seq) +:+ " nt, Required: ≥"
     +:+ PyStr.of_int min_scaffold_length +:+ " nt")
    ("Geometry requires ~" +:+ PyStr.of_int min_scaffold_length +:+ " nucleotides "
     +:+ "(" +:+ PyStr.of_int num_edges +:+ " edges, total length "
     +:+ Binary64.format_1f total_edge_length +:+ " bp). "
     +:+ "Rule of thumb: scaffold length ≥ 2 × total edge length.").

(** The body of the [try] around the scaffold: resolution, then the
    length check. *)
Definition scaffold_body (scaffold_sequence : option scaffold_arg)
    (project_name : string) (edge_length_vec : option (list Z))
    (min_scaffold_length num_edges total_edge_length : Z) : M (seqval * seqval) :=
  let* sn := _process_scaffold_sequence scaffold_sequence project_name edge_length_vec in
  let scaf_seq := sn.1 in
  run raise_if (truthy scaf_seq && (len scaf_seq <? min_scaffold_length))
        (too_short_error scaf_seq min_scaffold_length num_edges total_edge_length)
  then ret sn.

(** Its [except Exception] clause: a [ScaffoldSequenceError] is raised
    again, anything else is wrapped. *)
Definition scaffold_handler {A} (e : exn) : option (M A) :=
  if is_domain CScaffoldSequenceError e then Some (raise e)
  else Some (raise (ScaffoldSequenceError "Error processing scaffold sequence"
                      "" (str_exn e))).

Definition scaffold_stage (scaffold_sequence : option scaffold_arg)
    (project_name : string) (edge_length_vec : option (list Z))
    (min_scaffold_length num_edges total_edge_length : Z) : M (seqval * seqval) :=
  try_except
    (scaffold_body scaffold_sequence project_name edge_length_vec
       min_scaffold_length num_edges total_edge_length)
    scaffold_handler.

(** The error raised in place of a failure [e] of [DX_cage_design]. *)
Definition classify_cage_error (e : exn) (scaf_seq : seqval) (num_edges : Z)
    (project_name helical_form : string) (helical_turns : Z) : exn :=
  let error_str := PyStr.lower (str_exn e) in
  if PyStr.contains "scaffold" error_str
     && (PyStr.contains "short" error_str || PyStr.contains "length" error_str) then
    ScaffoldSequenceError "Scaffold too short during design"
      ("Current scaffold: "
       +:+ (if truthy scaf_seq then PyStr.of_int (len scaf_seq) else "default")
       +:+ " nt")
      ("Design algorithm error: " +:+ str_exn e)
  else if PyStr.contains "staple" error_str then
    StapleGenerationError "Staple sequence assignment"
      ("Error during staple generation: " +:+ str_exn e)
  else if PyStr.contains "routing" error_str || PyStr.contains "path" error_str then
    DesignConstraintError "Scaffold routing failed"
      ("Edges: " +:+ PyStr.of_int num_edges +:+ ", Form: " +:+ helical_form)
      ("Cannot find valid scaffold path through geometry: " +:+ str_exn e)
  else
    DesignConstraintError "Design algorithm failed"
      ("Project: " +:+ project_name +:+ ", Form: " +:+ helical_form
       +:+ ", Turns: " +:+ PyStr.of_int helical_turns)
      ("Unexpected error in DX_cage_design: " +:+ str_exn e).

(** The call of [DX_cage_design], with the evaluation of its arguments. *)
Definition cage_body (E : engine) (r : request) (g : geometry)
    (scaf_seq scaf_name : seqval) (helical_config : option HelicalConfig)
    (project_dir : PurePath.t) : M string :=
  let* c1 := config_item helical_config in
  let* c2 := config_item helical_config in
  DX_cage_design E
    (mkcage_args (coordinates g) (edges g) (faces g) (edge_length_vec g)
       (file_name g) (staple_name g) (Z.b2z (req_single_crossovers r))
       scaf_seq scaf_name (h_form c1) (PurePath.str project_dir)
       (twist c2) (req_print_output r)).

(** The [try] around [DX_cage_design]. *)
Definition cage_stage (E : engine) (r : request) (g : geometry)
    (scaf_seq scaf_name : seqval) (helical_config : option HelicalConfig)
    (project_dir : PurePath.t) (num_edges : Z) : M string :=
  try_except
    (cage_body E r g scaf_seq scaf_name helical_config project_dir)
    (fun e =>
       Some (raise (classify_cage_error e scaf_seq num_edges
                      (req_project_name r) (req_helical_form r)
                      (req_helical_turns r)))).

Definition pdb_warning (e : exn) : list string :=
  [ "Warning: PDB file generation failed: " +:+ str_exn e;
    "Other output files (CSV, CanDo) were generated successfully." ].

(** The call of [pdbgen], with the evaluation of its arguments. *)
Definition pdb_body (E : engine) (full_file_name : string)
    (helical_config : option HelicalConfig) (project_dir : PurePath.t) : M unit :=
  let* c := config_item helical_config in
  pdbgen E full_file_name (h_form c) (PurePath.str project_dir).

(** The [try] around [pdbgen]: the failure is printed, or dropped. *)
Definition pdb_stage (E : engine) (print_output : bool) (full_file_name : string)
    (helical_config : option HelicalConfig) (project_dir : PurePath.t) : M unit :=
  try_except
    (pdb_body E full_file_name helical_config project_dir)
    (fun e =>
       Some (if print_output then
               run print ("Warning: PDB file generation failed: " +:+ str_exn e)
               then print "Other output files (CSV, CanDo) were generated successfully."
             else ret tt)).

(** [len(edges) if edges is not None else 0] *)
Definition count_edges (edges : option (list handle)) : Z :=
  match edges with Some l => Z.of_nat (List.length l) | None => 0 end.

(** [sum(edge_length_vec) if edge_length_vec is not None else 0] *)
Definition total_length (edge_length_vec : option (list Z)) : Z :=
  match edge_length_vec with Some l => sum l | None => 0 end.

(** What the statements before the scaffold [try] leave in scope. *)
Record context := mkcontext {
  ctx_geometry_file : PurePath.t;
  ctx_project_dir : PurePath.t;
  ctx_helical_config : option HelicalConfig;
  ctx_geometry : geometry
}.

(** [design_structure] up to the check that the geometry has edges:
    validation of the inputs, the helical configuration, the conversion
    of the geometry. *)
Definition prepare (E : engine) (r : request) : M context :=
  let geometry_file := Path (req_geometry_file r) in
  run validate_geometry_file geometry_file then
  run check_helical_form (req_helical_form r) then
  run check_helical_turns (req_helical_form r) (req_helical_turns r) then
  run validate_scaffold_sequence (req_scaffold_sequence r) (req_project_name r) then
  let output_dir := option_map Path (req_output_dir r) in
  let* project_dir := validate_output_directory output_dir (req_project_name r) in
  let* helical_config :=
    lift (_get_helical_config (req_helical_form r) (req_helical_turns r)) in
  let* g := geometry_stage E geometry_file project_dir helical_config in
  run raise_if (count_edges (edges g) =? 0)
        (DesignConstraintError "No edges found in geometry"
           ("File: " +:+ PurePath.str geometry_file)
           "The PLY file must define a 3D polyhedron with edges")
  then ret (mkcontext geometry_file project_dir helical_config g).

Definition design_structure (E : engine) (r : request) : M DesignResult :=
  let* ctx := prepare E r in
  let g := ctx_geometry ctx in
  let project_dir := ctx_project_dir ctx in
  let helical_config := ctx_helical_config ctx in
  let num_edges := count_edges (edges g) in
  let total_edge_length := total_length (edge_length_vec g) in
  let min_scaffold_length := 2 * total_edge_length in
  let* sn := scaffold_stage (req_scaffold_sequence r) (req_project_name r)
               (edge_length_vec g) min_scaffold_length num_edges total_edge_length in
  let* full_file_name :=
    cage_stage E r g sn.1 sn.2 helical_config project_dir num_edges in
  run pdb_stage E (req_print_output r) full_file_name helical_config project_dir
  then
  ret (DesignResult_init (req_project_name r) (PurePath.str project_dir) full_file_name).

(** The two convenience entry points. *)
Definition design_dna_structure (E : engine) (r : request) : M DesignResult :=
  design_structure E
    (mkrequest (req_project_name r) (req_geometry_file r) "Bform"
       (req_helical_turns r) (req_scaffold_sequence r) (req_output_dir r)
       (req_single_crossovers r) (req_print_output r)).

Definition design_rna_structure (E : engine) (r : request) : M DesignResult :=
  design_structure E
    (mkrequest (req_project_name r) (req_geometry_file r) "Aform"
       (req_helical_turns r) (req_scaffold_sequence r) (req_output_dir r)
       (req_single_crossovers r) (req_print_output r)).

(** * Notions used by the properties *)

(** The table of the specification, with [floor(turns × 10.5)] taken over
    the rationals: [21 * turns / 2] rounded down. *)
Definition table_config (helical_form : string) (helical_turns : Z)
    : option HelicalConfig :=
  if bool_decide (helical_form = "Bform") then
    Some (mkHelicalConfig ((21 * helical_turns) / 2) false 1)
  else if bool_decide (helical_form = "Aform") then
    Some (mkHelicalConfig (helical_turns * 11) true 1)
  else if bool_decide (helical_form = "Hybrid") then
    Some (mkHelicalConfig (helical_turns * 11) true 2)
  else if bool_decide (helical_form = "Twisted") then
    Some (mkHelicalConfig (helical_turns * 11) true 3)
  else None.

(** A path [p] is the name [template] rooted at the directory [d]: the
    root of [d], the components of [d], then those of the name. *)
Definition rooted_at (d : PurePath.t) (template : string) (p : PurePath.t) : Prop :=
  PurePath.root p = PurePath.root d
  /\ PurePath.parts p = (PurePath.parts d ++ PurePath.components template)%list.

(** The order of [sorted] on characters: by code point. *)
Definition code_lt (c d : ascii) : Prop := (nat_of_ascii c < nat_of_ascii d)%nat.

(** Every exception the statement can raise satisfies [P]. *)
Definition raises_only {A} (P : exn -> Prop) (m : M A) : Prop :=
  forall w e w', m w = (Raise e, w') -> P e.

(** The exception is a built-in one, not an error of this package. *)
Definition builtin_exn (e : exn) : Prop :=
  match e with Builtin _ _ => True | Domain _ _ _ _ => False end.

(** The exception is not a [HelicalParameterError]. *)
Definition not_helical (e : exn) : Prop :=
  is_domain CHelicalParameterError e = false.

(** The world after the lines have been printed. *)
Definition emit (lines : list string) (w : world) : world :=
  mkworld (fs w) (stdout w ++ lines).

(** Every stage of [design_structure] other than the atomic model has
    returned: the validators, the helical configuration, the geometry
    conversion, the scaffold resolution with its length check and the cage
    design; the atomic model has either returned or raised an exception
    that was printed or dropped. *)
Definition other_stages_returned (E : engine) (r : request) (w wf : world)
    (res : DesignResult) : Prop :=
  exists wa wb wc pd c g w1 sn w2 full w3,
    validate_geometry_file (Path (req_geometry_file r)) w = (Ok tt, wa)
    /\ validate_scaffold_sequence (req_scaffold_sequence r) (req_project_name r) wa
       = (Ok tt, wb)
    /\ validate_output_directory (option_map Path (req_output_dir r))
         (req_project_name r) wb = (Ok pd, wc)
    /\ _get_helical_config (req_helical_form r) (req_helical_turns r) = Ok (Some c)
    /\ ply_to_input E (PurePath.str (Path (req_geometry_file r))) (PurePath.str pd)
         (min_edge_len c) (h_form c) wc = (Ok g, w1)
    /\ scaffold_body (req_scaffold_sequence r) (req_project_name r)
         (edge_length_vec g) (2 * total_length (edge_length_vec g))
         (count_edges (edges g)) (total_length (edge_length_vec g)) w1 = (Ok sn, w2)
    /\ cage_body E r g sn.1 sn.2 (Some c) pd w2 = (Ok full, w3)
    /\ res = DesignResult_init (req_project_name r) (PurePath.str pd) full
    /\ (pdb_body E full (Some c) pd w3 = (Ok tt, wf)
        \/ exists e w4,
             pdb_body E full (Some c) pd w3 = (Raise e, w4)
             /\ wf = if req_print_output r then emit (pdb_warning e) w4 else w4).

(** The directory is there and its parent is not missing. *)
Definition settled (f : fsys) (p : PurePath.t) : Prop :=
  OS.node f (OS.key f p) = Some Dir
  /\ OS.node f (List.removelast (OS.key f p)) <> None.

(** Every character of the string satisfies [P]; strings made of spaces,
    strings without a space. *)
Fixpoint all_chars (P : ascii -> bool) (s : string) : bool :=
  match s with
  | EmptyString => true
  | String c s' => P c && all_chars P s'
  end.

Abbreviation all_space := (all_chars PyStr.is_space).
Abbreviation no_space := (all_chars (fun c => negb (PyStr.is_space c))).

(** ** Example worlds, engines and requests *)

(** A working directory [/work] with a geometry file, a scaffold file and
    a file whose name reads as a nucleotide sequence. *)
Definition example_nodes : gmap (list string) fnode :=
  <[ ["work"] := Dir ]>
  (<[ ["work"; "tet.ply"] := File "ply format ascii 1.0" ]>
  (<[ ["work"; "scaf.txt"] := File "atgcatgc" ]>
  (<[ ["work"; "GATTACA"] := File "hello!" ]>
  (<[ ["ro"] := Dir ]> ∅)))).

Definition example_fs : fsys :=
  mkfs example_nodes (fun _ => true)
    (fun k => negb (bool_decide (k = ["ro"]))) (fun _ => None) 10 ["work"].

Definition example_world : world := mkworld example_fs [].

(** The same, with the file [/work/GATTACA] unreadable. *)
Definition example_world_unreadable : world :=
  mkworld
    (mkfs example_nodes (fun k => negb (bool_decide (k = ["work"; "GATTACA"])))
       (fun _ => true) (fun _ => None) 10 ["work"])
    [].

Definition example_geometry : geometry :=
  mkgeometry 1%N (Some [2%N; 3%N; 4%N]) 5%N (Some [42; 42; 42]) "tet" "tet_staples" 0.

(** An engine whose three operations succeed. *)
Definition example_engine : engine :=
  mkengine (fun _ _ _ _ => ret example_geometry)
    (fun _ => ret "tet_full")
    (fun _ _ _ => ret tt).

(** An engine whose atomic-model step fails. *)
Definition example_engine_pdb_fails : engine :=
  mkengine (fun _ _ _ _ => ret example_geometry)
    (fun _ => ret "tet_full")
    (fun _ _ _ => raise (Builtin CException "no atoms")).

(** An engine whose cage design fails. *)
Definition example_engine_cage_fails : engine :=
  mkengine (fun _ _ _ _ => ret example_geometry)
    (fun _ => raise (Builtin CException "Staple too long on edge 3"))
    (fun _ _ _ => ret tt).

Definition example_request : request :=
  mkrequest "proj" "tet.ply" "Bform" 4 None (Some "out") false true.

Definition example_context : context :=
  mkcontext (Path "tet.ply") (Path "out" // "proj")
    (Some (mkHelicalConfig 42 false 1)) example_geometry.

(** The world after [prepare]: the project directory has been made. *)
Definition example_prepared : world :=
  (prepare example_engine example_request example_world).2.

Definition example_request_short : request :=
  mkrequest "proj" "tet.ply" "Bform" 4 (Some (ScafStr "ATGC")) (Some "out") false true.

Definition example_request_named_file : request :=
  mkrequest "proj" "tet.ply" "Bform" 4 (Some (ScafStr "GATTACA")) (Some "out") false true.

Definition example_request_quiet : request :=
  mkrequest "proj" "tet.ply" "Bform" 4 None (Some "out") false false.

Definition example_prepared_unreadable : world :=
  (prepare example_engine example_request_named_file example_world_unreadable).2.

Definition example_validated : world :=
  (validate_output_directory (Some (Path "out")) "proj" example_world).2.

(** An engine with short edges whose cage design returns, as the stem,
    the scaffold sequence it was given. *)
Definition example_engine_echo : engine :=
  mkengine
    (fun _ _ _ _ =>
       ret (mkgeometry 1%N (Some [2%N; 3%N; 4%N]) 5%N (Some [1; 1; 1])
              "tet" "tet_staples" 0))
    (fun a => ret (match arg_scaf_seq a with Str s => s | EmptyList => "" end))
    (fun _ _ _ => ret tt).

(** * Properties *)

(** ** The helical table *)

Lemma valid_forms_cases (helical_form : string) :
  helical_form ∈ valid_forms ->
  helical_form = "Aform" \/ helical_form = "Bform"
  \/ helical_form = "Hybrid" \/ helical_form = "Twisted".
Proof.
  unfold valid_forms. rewrite !elem_of_cons, elem_of_nil. tauto.
Qed.

Lemma rne53_exact (n : Z) : Z.abs n < 2 ^ 53 -> Binary64.rne53 n = n.
Proof.
  intros Hn. unfold Binary64.rne53.
  destruct (Z.ltb_spec (Z.abs n) (2 ^ 53)); [reflexivity | lia].
Qed.

Lemma floor_turns_exact (helical_turns : Z) :
  Z.abs (21 * helical_turns) < 2 ^ 53 ->
  floor_turns_10_5 helical_turns = Ok ((21 * helical_turns) / 2).
Proof.
  intros Hn. unfold floor_turns_10_5, Binary64.of_int, Binary64.mul_10_5_twice.
  assert (Hs : Z.abs helical_turns < 2 ^ 53) by lia.
  rewrite (rne53_exact _ Hs).
  destruct (Z.ltb_spec (Z.abs helical_turns) (2 ^ 1024)) as [_ | Hbig].
  2:{ assert (2 ^ 53 < 2 ^ 1024) by (apply Z.pow_lt_mono_r; lia). lia. }
  rewrite (rne53_exact _ Hn).
  destruct (Z.ltb_spec (Z.abs (21 * helical_turns)) (2 ^ 1025)) as [_ | Hbig].
  2:{ assert (2 ^ 53 < 2 ^ 1025) by (apply Z.pow_lt_mono_r; lia). lia. }
  reflexivity.
Qed.

(** The range [21 * turns < 2^53] in plain figures. *)
Lemma exact_range_bound (helical_turns : Z) :
  21 * helical_turns < 2 ^ 53 <-> helical_turns <= 428914250225761.
Proof. change (2 ^ 53) with 9007199254740992. lia. Qed.

(** C1, as amended.  For each of the four helical forms and every turn
    count at or above the minimum of the form, [_get_helical_config]
    returns the row of the table: for Aform, Hybrid and Twisted at every
    such count; for Bform at every count with [21 * turns < 2^53], that
    is [turns <= 428914250225761] (see [exact_range_bound]), the range in
    which the double product [turns * 10.5] is exact.  In
    particular (Bform, 4) gives (42, False, 1) and (Hybrid, 4) gives
    (44, True, 2). *)
Theorem helical_config_table (helical_form : string) (helical_turns required : Z) :
  helical_form ∈ valid_forms ->
  min_turns helical_form = Some required ->
  required <= helical_turns ->
  (helical_form = "Bform" -> 21 * helical_turns < 2 ^ 53) ->
  _get_helical_config helical_form helical_turns
    = Ok (table_config helical_form helical_turns)
  /\ _get_helical_config "Bform" 4 = Ok (Some (mkHelicalConfig 42 false 1))
  /\ _get_helical_config "Hybrid" 4 = Ok (Some (mkHelicalConfig 44 true 2)).
Proof.
  intros Hform Hmin Hle Hexact. split; [| split; reflexivity].
  destruct (valid_forms_cases _ Hform) as [-> | [-> | [-> | ->]]];
    try reflexivity.
  unfold _get_helical_config, table_config. simpl.
  injection Hmin as <-.
  rewrite floor_turns_exact; [reflexivity |].
  specialize (Hexact eq_refl). lia.
Qed.

Lemma helical_config_table_witness :
  _get_helical_config "Bform" 3 = Ok (table_config "Bform" 3)
  /\ _get_helical_config "Bform" 4 = Ok (Some (mkHelicalConfig 42 false 1))
  /\ _get_helical_config "Hybrid" 4 = Ok (Some (mkHelicalConfig 44 true 2)).
Proof.
  apply (helical_config_table "Bform" 3 3).
  - unfold valid_forms. rewrite !elem_of_cons. tauto.
  - reflexivity.
  - lia.
  - intros _. reflexivity.
Defined.

(** C1, as stated, fails for Bform at 428914250225767 turns: the exact
    product is 4503599627370553.5, the double product is rounded to the
    even neighbour 4503599627370554, and that is what the code returns,
    whereas the table asks for 4503599627370553. *)
Lemma helical_config_table_counterexample :
  min_turns "Bform" = Some 3
  /\ 3 <= 428914250225767
  /\ table_config "Bform" 428914250225767
     = Some (mkHelicalConfig 4503599627370553 false 1)
  /\ _get_helical_config "Bform" 428914250225767
     = Ok (Some (mkHelicalConfig 4503599627370554 false 1)).
Proof. repeat split; try reflexivity. lia. Qed.

(** ** The result container *)

Lemma leading_slashes_append (s ext : string) :
  PurePath.leading_slashes s = 0%nat ->
  PurePath.leading_slashes ext = 0%nat ->
  PurePath.leading_slashes (s +:+ ext) = 0%nat.
Proof.
  intros Hs Hext. destruct s as [| c s]; simpl in *; [exact Hext |].
  destruct (Ascii.eqb c "/"); [discriminate | reflexivity].
Qed.

Lemma joinpath_relative (d : PurePath.t) (template : string) :
  PurePath.leading_slashes template = 0%nat ->
  rooted_at d template (d // template).
Proof.
  intros H. unfold rooted_at, PurePath.joinpath, PurePath.Path, PurePath.splitroot.
  rewrite H. simpl. split; reflexivity.
Qed.

(** C9, as amended.  [DesignResult] stores the project name, the output
    directory and the stem, and nothing else; the four artifact paths are
    functions of these.  The CSV path is [staples_<stem>.csv] rooted at
    the output directory for every stem; the CanDo, PDB and plot paths are
    [<stem>.cndo], [<stem>.pdb] and [<stem>.png] rooted at the output
    directory for every stem that does not begin with a slash.  For
    ("p", "/out", "mystem") the four paths print as
    /out/staples_mystem.csv, /out/mystem.cndo, /out/mystem.pdb and
    /out/mystem.png.  None of these functions takes the file system. *)
Theorem artifact_paths (project out stem : string) :
  PurePath.leading_slashes stem = 0%nat ->
  let r := DesignResult_init project out stem in
  (project_name r = project /\ output_dir r = Path out /\ full_file_name r = stem)
  /\ rooted_at (Path out) ("staples_" +:+ stem +:+ ".csv") (csv_file r)
  /\ rooted_at (Path out) (stem +:+ ".cndo") (cndo_file r)
  /\ rooted_at (Path out) (stem +:+ ".pdb") (pdb_file r)
  /\ rooted_at (Path out) (stem +:+ ".png") (plot_file r)
  /\ PurePath.str (csv_file (DesignResult_init "p" "/out" "mystem"))
     = "/out/staples_mystem.csv"
  /\ PurePath.str (cndo_file (DesignResult_init "p" "/out" "mystem"))
     = "/out/mystem.cndo"
  /\ PurePath.str (pdb_file (DesignResult_init "p" "/out" "mystem"))
     = "/out/mystem.pdb"
  /\ PurePath.str (plot_file (DesignResult_init "p" "/out" "mystem"))
     = "/out/mystem.png".
Proof.
  intros Hstem r.
  split; [repeat split |].
  split; [apply joinpath_relative; reflexivity |].
  repeat split;
    try (apply joinpath_relative, leading_slashes_append; [exact Hstem | reflexivity]);
    try (apply (proj1 (joinpath_relative _ _
                 (leading_slashes_append _ _ Hstem eq_refl))));
    try (apply (proj2 (joinpath_relative _ _
                 (leading_slashes_append _ _ Hstem eq_refl)))).
Qed.

(** The CSV path needs no condition on the stem. *)
Lemma csv_file_rooted (project out stem : string) :
  rooted_at (Path out) ("staples_" +:+ stem +:+ ".csv")
    (csv_file (DesignResult_init project out stem)).
Proof. apply joinpath_relative. reflexivity. Qed.

Lemma artifact_paths_witness :
  let r := DesignResult_init "p" "/out" "mystem" in
  (project_name r = "p" /\ output_dir r = Path "/out" /\ full_file_name r = "mystem")
  /\ rooted_at (Path "/out") "staples_mystem.csv" (csv_file r)
  /\ rooted_at (Path "/out") "mystem.cndo" (cndo_file r)
  /\ rooted_at (Path "/out") "mystem.pdb" (pdb_file r)
  /\ rooted_at (Path "/out") "mystem.png" (plot_file r)
  /\ PurePath.str (csv_file r) = "/out/staples_mystem.csv"
  /\ PurePath.str (cndo_file r) = "/out/mystem.cndo"
  /\ PurePath.str (pdb_file r) = "/out/mystem.pdb"
  /\ PurePath.str (plot_file r) = "/out/mystem.png".
Proof. apply (artifact_paths "p" "/out" "mystem"). reflexivity. Defined.

(** C9, as stated, fails for a stem that begins with a slash: the
    template is then an absolute path, and joining it to the output
    directory gives the template alone. *)
Lemma artifact_paths_counterexample :
  PurePath.str (cndo_file (DesignResult_init "p" "/out" "/tmp/x")) = "/tmp/x.cndo"
  /\ PurePath.parts (cndo_file (DesignResult_init "p" "/out" "/tmp/x"))
     = ["tmp"; "x.cndo"]
  /\ (PurePath.parts (Path "/out") ++ PurePath.components "/tmp/x.cndo")%list
     = ["out"; "tmp"; "x.cndo"].
Proof. repeat split. Qed.

(** ** The alphabet check on an inline scaffold string *)

Lemma nat_of_ascii_inj (c d : ascii) : nat_of_ascii c = nat_of_ascii d -> c = d.
Proof.
  intros H. rewrite <- (ascii_nat_embedding c), <- (ascii_nat_embedding d).
  now rewrite H.
Qed.

Lemma insert_sorted_In (c d : ascii) (l : list ascii) :
  In d (PyStr.insert_sorted c l) <-> d = c \/ In d l.
Proof.
  induction l as [| x l IH]; simpl.
  - intuition.
  - destruct (nat_of_ascii c <? nat_of_ascii x)%nat; simpl; [intuition |].
    destruct (Ascii.eqb_spec c x) as [-> | Hne]; simpl; [intuition |].
    rewrite IH. intuition.
Qed.

Lemma sorted_set_In (d : ascii) (l : list ascii) :
  In d (PyStr.sorted_set l) <-> In d l.
Proof.
  unfold PyStr.sorted_set. induction l as [| x l IH]; simpl; [reflexivity |].
  rewrite insert_sorted_In, IH. intuition.
Qed.

Lemma insert_sorted_sorted (c : ascii) (l : list ascii) :
  StronglySorted code_lt l -> StronglySorted code_lt (PyStr.insert_sorted c l).
Proof.
  induction 1 as [| x l Hl IH Hx]; simpl.
  - repeat constructor.
  - destruct (Nat.ltb_spec (nat_of_ascii c) (nat_of_ascii x)) as [Hlt | Hge].
    + constructor; [constructor; assumption |].
      constructor; [exact Hlt |].
      eapply Forall_impl; [exact Hx |]. unfold code_lt. intros a Ha. simpl in *. lia.
    + destruct (Ascii.eqb_spec c x) as [-> | Hne]; [constructor; assumption |].
      constructor; [exact IH |].
      apply Forall_forall. intros a Ha.
      apply list_elem_of_In, insert_sorted_In in Ha. destruct Ha as [-> | Ha].
      * unfold code_lt.
        assert (nat_of_ascii c <> nat_of_ascii x)
          by (intros Heq; apply Hne, nat_of_ascii_inj, Heq).
        lia.
      * rewrite Forall_forall in Hx. apply Hx, list_elem_of_In, Ha.
Qed.

Lemma sorted_set_sorted (l : list ascii) : StronglySorted code_lt (PyStr.sorted_set l).
Proof.
  unfold PyStr.sorted_set. induction l as [| x l IH]; simpl.
  - constructor.
  - apply insert_sorted_sorted, IH.
Qed.

Lemma chars_upper (s : string) :
  PyStr.chars (PyStr.upper s) = List.map PyStr.upper_char (PyStr.chars s).
Proof.
  unfold PyStr.chars, PyStr.upper.
  induction s as [| c s IH]; simpl; [reflexivity | now rewrite IH].
Qed.

Lemma invalid_chars_In (d : ascii) (sequence : string) :
  In d (invalid_chars sequence)
  <-> In d (PyStr.chars sequence) /\ PyStr.mem d valid_bases = false.
Proof.
  unfold invalid_chars. rewrite sorted_set_In, filter_In, negb_true_iff. reflexivity.
Qed.

Lemma upper_char_not_lower (c : ascii) : PyStr.is_lower (PyStr.upper_char c) = false.
Proof.
  unfold PyStr.upper_char. destruct (PyStr.is_lower c) eqn:Hc; [| exact Hc].
  unfold PyStr.is_lower in *.
  apply andb_true_iff in Hc as [H1 H2].
  apply Nat.leb_le in H1, H2.
  rewrite nat_ascii_embedding by lia.
  apply andb_false_iff. left. apply Nat.leb_gt. lia.
Qed.

Lemma found_info_nonempty (invalid : list ascii) :
  bool_decide (found_info invalid = "") = false.
Proof. reflexivity. Qed.

(** C7, as amended.  For an inline scaffold string (one that is not sent
    to the file branch) with a character whose upper-case form is outside
    ATGCU, validation raises [ScaffoldSequenceError] and leaves the world
    as it was.  The check is made on the upper-cased string.  The
    offending characters are listed in the message of the error, after
    "Found: ", in increasing order, without repeats and in upper case;
    they are the upper-case forms of the characters of the input that are
    outside the alphabet.  The technical detail names the allowed letters
    and the length of the string; it does not list the offending
    characters. *)
Theorem inline_scaffold_invalid (s project : string) (w : world) (c : ascii) :
  looks_like_file (ScafStr s) = false ->
  In c (PyStr.chars s) ->
  PyStr.mem (PyStr.upper_char c) valid_bases = false ->
  let sequence := PyStr.upper s in
  let invalid := invalid_chars sequence in
  let e := ScaffoldSequenceError "Invalid characters in scaffold sequence string"
             (found_info invalid) (allowed_details sequence) in
  validate_scaffold_sequence (Some (ScafStr s)) project w = (Raise e, w)
  /\ is_domain CScaffoldSequenceError e = true
  /\ exn_message e
     = "Scaffold sequence problem: Invalid characters in scaffold sequence string ("
       +:+ "Found: " +:+ PyStr.join ", " (List.map char_str invalid) +:+ ")"
  /\ exn_technical_details e
     = "Only A, T, G, C, U are allowed. Sequence length: "
       +:+ PyStr.of_int (Z.of_nat (String.length sequence))
  /\ In (PyStr.upper_char c) invalid
  /\ StronglySorted code_lt invalid
  /\ (forall d, In d invalid <->
        (exists c', In c' (PyStr.chars s) /\ PyStr.upper_char c' = d)
        /\ PyStr.mem d valid_bases = false)
  /\ (forall d, In d invalid -> PyStr.is_lower d = false).
Proof.
  intros Hinline Hc Hbad sequence invalid e.
  assert (Hmem : forall d, In d invalid <->
            (exists c', In c' (PyStr.chars s) /\ PyStr.upper_char c' = d)
            /\ PyStr.mem d valid_bases = false).
  { intros d. unfold invalid, sequence.
    rewrite invalid_chars_In, chars_upper, in_map_iff.
    split; intros [[c' [H1 H2]] H3]; (split; [exists c'; tauto | exact H3]). }
  assert (Hin : In (PyStr.upper_char c) invalid).
  { apply Hmem. split; [exists c; tauto | exact Hbad]. }
  split; [| split; [reflexivity | split; [reflexivity | split; [reflexivity |]]]].
  - unfold validate_scaffold_sequence.
    assert (Hdef : is_default_scaffold (Some (ScafStr s)) = false).
    { simpl. apply bool_decide_eq_false. intros ->. discriminate Hinline. }
    rewrite Hdef. unfold bind, get_fs. rewrite Hinline.
    cbn [scaffold_str]. fold sequence. fold invalid.
    assert (Hne : bool_decide (invalid = []) = false).
    { apply bool_decide_eq_false. intros Heq. rewrite Heq in Hin. exact Hin. }
    rewrite Hne. reflexivity.
  - split; [exact Hin |]. split; [apply sorted_set_sorted |].
    split; [exact Hmem |].
    intros d Hd. apply Hmem in Hd as [[c' [_ <-]] _]. apply upper_char_not_lower.
Qed.

Lemma inline_scaffold_invalid_witness :
  let sequence := PyStr.upper "ATxG" in
  let invalid := invalid_chars sequence in
  let e := ScaffoldSequenceError "Invalid characters in scaffold sequence string"
             (found_info invalid) (allowed_details sequence) in
  validate_scaffold_sequence (Some (ScafStr "ATxG")) "proj" example_world
    = (Raise e, example_world)
  /\ is_domain CScaffoldSequenceError e = true
  /\ exn_message e
     = "Scaffold sequence problem: Invalid characters in scaffold sequence string ("
       +:+ "Found: " +:+ PyStr.join ", " (List.map char_str invalid) +:+ ")"
  /\ exn_technical_details e
     = "Only A, T, G, C, U are allowed. Sequence length: "
       +:+ PyStr.of_int (Z.of_nat (String.length sequence))
  /\ In (PyStr.upper_char "x") invalid
  /\ StronglySorted code_lt invalid
  /\ (forall d, In d invalid <->
        (exists c', In c' (PyStr.chars "ATxG") /\ PyStr.upper_char c' = d)
        /\ PyStr.mem d valid_bases = false)
  /\ (forall d, In d invalid -> PyStr.is_lower d = false).
Proof.
  apply (inline_scaffold_invalid "ATxG" "proj" example_world "x"%char).
  - reflexivity.
  - simpl. tauto.
  - reflexivity.
Defined.

(** C7, as stated, fails on where the characters are listed: for the
    inline string ATxG the error message ends in (Found: X), and the
    technical detail holds no X. *)
Lemma inline_scaffold_invalid_counterexample :
  exists e,
    validate_scaffold_sequence (Some (ScafStr "ATxG")) "proj" example_world
      = (Raise e, example_world)
    /\ exn_message e
       = "Scaffold sequence problem: Invalid characters in scaffold sequence string (Found: X)"
    /\ exn_technical_details e
       = "Only A, T, G, C, U are allowed. Sequence length: 4"
    /\ PyStr.contains "X" (exn_technical_details e) = false.
Proof. eexists. repeat split. Qed.

(** ** Reasoning about statements *)

Lemma bind_Ok {A B} (m : M A) (k : A -> M B) (w w' : world) (a : A) :
  m w = (Ok a, w') -> bind m k w = k a w'.
Proof. intros H. unfold bind. now rewrite H. Qed.

Lemma bind_Raise {A B} (m : M A) (k : A -> M B) (w w' : world) (e : exn) :
  m w = (Raise e, w') -> bind m k w = (Raise e, w').
Proof. intros H. unfold bind. now rewrite H. Qed.

Lemma bind_inv_Ok {A B} (m : M A) (k : A -> M B) (w w'' : world) (b : B) :
  bind m k w = (Ok b, w'') ->
  exists a w', m w = (Ok a, w') /\ k a w' = (Ok b, w'').
Proof.
  unfold bind. destruct (m w) as [[a | e] w'] eqn:Hm; intros H.
  - exists a, w'. split; [reflexivity | exact H].
  - discriminate H.
Qed.

Lemma bind_inv_Raise {A B} (m : M A) (k : A -> M B) (w w'' : world) (e : exn) :
  bind m k w = (Raise e, w'') ->
  m w = (Raise e, w'')
  \/ exists a w', m w = (Ok a, w') /\ k a w' = (Raise e, w'').
Proof.
  unfold bind. destruct (m w) as [[a | e0] w'] eqn:Hm; intros H.
  - right. exists a, w'. split; [reflexivity | exact H].
  - left. now inversion H.
Qed.

Lemma try_except_Ok {A} (body : M A) (h : exn -> option (M A)) (w w' : world) (a : A) :
  body w = (Ok a, w') -> try_except body h w = (Ok a, w').
Proof. intros H. unfold try_except. now rewrite H. Qed.

Lemma try_except_Raise {A} (body : M A) (h : exn -> option (M A))
    (w w' : world) (e : exn) (hh : M A) :
  body w = (Raise e, w') -> h e = Some hh -> try_except body h w = hh w'.
Proof. intros H Hh. unfold try_except. now rewrite H, Hh. Qed.

Lemma try_except_inv {A} (body : M A) (h : exn -> option (M A))
    (w w'' : world) (res : result A) :
  try_except body h w = (res, w'') ->
  (exists a, body w = (Ok a, w'') /\ res = Ok a)
  \/ (exists e w' hh, body w = (Raise e, w') /\ h e = Some hh /\ hh w' = (res, w''))
  \/ (exists e, body w = (Raise e, w'') /\ h e = None /\ res = Raise e).
Proof.
  unfold try_except. destruct (body w) as [[a | e] w'] eqn:Hb; intros H.
  - left. exists a. now inversion H.
  - destruct (h e) as [hh |] eqn:Hh.
    + right; left. exists e, w', hh. auto.
    + right; right. exists e. now inversion H.
Qed.

Lemma raises_only_ret {A} (P : exn -> Prop) (a : A) : raises_only P (ret a).
Proof. intros w e w' H. discriminate H. Qed.

Lemma raises_only_raise {A} (P : exn -> Prop) (e : exn) :
  P e -> raises_only P (@raise A e).
Proof. intros He w e' w' H. now inversion H; subst. Qed.

Lemma raises_only_raise_if (P : exn -> Prop) (c : bool) (e : exn) :
  P e -> raises_only P (raise_if c e).
Proof.
  intros He. unfold raise_if. destruct c;
    [now apply raises_only_raise | apply raises_only_ret].
Qed.

Lemma raises_only_bind {A B} (P : exn -> Prop) (m : M A) (k : A -> M B) :
  raises_only P m -> (forall a, raises_only P (k a)) -> raises_only P (bind m k).
Proof.
  intros Hm Hk w e w' H. apply bind_inv_Raise in H as [H | [a [w1 [_ H]]]].
  - exact (Hm _ _ _ H).
  - exact (Hk _ _ _ _ H).
Qed.

Lemma raises_only_get_fs (P : exn -> Prop) : raises_only P get_fs.
Proof. intros w e w' H. discriminate H. Qed.

Lemma raises_only_print (P : exn -> Prop) (line : string) : raises_only P (print line).
Proof. intros w e w' H. discriminate H. Qed.

Lemma raises_only_lift {A} (P : exn -> Prop) (r : result A) :
  (forall e, r = Raise e -> P e) -> raises_only P (lift r).
Proof. intros Hr w e w' H. apply Hr. now inversion H. Qed.

Lemma raises_only_query {A} (P : exn -> Prop) (op : fsys -> result A) :
  (forall f e, op f = Raise e -> P e) -> raises_only P (OS.query op).
Proof. intros Hop w e w' H. apply (Hop (fs w)). now inversion H. Qed.

Lemma raises_only_call {A} (P : exn -> Prop) (op : fsys -> result A * fsys) :
  (forall f e f', op f = (Raise e, f') -> P e) -> raises_only P (OS.call op).
Proof.
  intros Hop w e w' H. unfold OS.call in H.
  destruct (op (fs w)) as [r f'] eqn:Hr. inversion H; subst.
  exact (Hop _ _ _ Hr).
Qed.

Lemma raises_only_try {A} (P : exn -> Prop) (body : M A) (h : exn -> option (M A)) :
  (forall w e w', body w = (Raise e, w') ->
     match h e with Some hh => raises_only P hh | None => P e end) ->
  raises_only P (try_except body h).
Proof.
  intros Hh w e w' H.
  apply try_except_inv in H as [[a [_ H]] | [[e0 [w1 [hh [Hb [He H]]]]] | [e0 [Hb [He H]]]]].
  - discriminate H.
  - specialize (Hh _ _ _ Hb). rewrite He in Hh. exact (Hh _ _ _ H).
  - specialize (Hh _ _ _ Hb). rewrite He in Hh. now inversion H; subst.
Qed.

Lemma raises_only_weaken {A} (P Q : exn -> Prop) (m : M A) :
  (forall e, P e -> Q e) -> raises_only P m -> raises_only Q m.
Proof. intros HPQ Hm w e w' H. apply HPQ, (Hm _ _ _ H). Qed.

(** *** The file-system calls raise built-in exceptions only *)

Lemma read_text_builtin (p : PurePath.t) (f : fsys) (e : exn) :
  OS.read_text f p = Raise e -> builtin_exn e.
Proof.
  unfold OS.read_text. intros H.
  repeat case_match; simplify_eq; exact I.
Qed.

Lemma iterdir_builtin (p : PurePath.t) (f : fsys) (e : exn) :
  OS.iterdir f p = Raise e -> builtin_exn e.
Proof.
  unfold OS.iterdir. intros H.
  repeat case_match; simplify_eq; exact I.
Qed.

Lemma mkdir1_builtin (p : PurePath.t) (f f' : fsys) (e : exn) :
  OS.mkdir1 f p = (Raise e, f') -> builtin_exn e.
Proof.
  unfold OS.mkdir1. intros H.
  repeat case_match; simplify_eq; exact I.
Qed.

Lemma mkdir_exist_ok_builtin (p : PurePath.t) (f f' : fsys) (e : exn) :
  OS.mkdir_exist_ok f p = (Raise e, f') -> builtin_exn e.
Proof.
  unfold OS.mkdir_exist_ok. intros H.
  destruct (OS.mkdir1 f p) as [[[] | e0] f0] eqn:Hm; [discriminate H |].
  apply mkdir1_builtin in Hm.
  destruct (is_OSError e0 && OS.is_dir f0 p); simplify_eq. exact Hm.
Qed.

Lemma mkdir_parents_rev_builtin (r : string) (rev_parts : list string)
    (f f' : fsys) (e : exn) :
  OS.mkdir_parents_rev f r rev_parts = (Raise e, f') -> builtin_exn e.
Proof.
  revert f f' e. induction rev_parts as [| x up IH]; intros f f' e; simpl.
  - destruct (OS.mkdir1 f _) as [[[] | e0] f0] eqn:Hm; [discriminate |].
    apply mkdir1_builtin in Hm. intros H.
    repeat case_match; simplify_eq; exact Hm.
  - destruct (OS.mkdir1 f _) as [[[] | e0] f0] eqn:Hm; [discriminate |].
    apply mkdir1_builtin in Hm. intros H.
    destruct (is_builtin CFileNotFoundError e0).
    + destruct (OS.mkdir_parents_rev f0 r up) as [[[] | e1] f1] eqn:Hup.
      * eapply mkdir_exist_ok_builtin, H.
      * inversion H; subst. eapply IH, Hup.
    + destruct (is_OSError e0 && OS.is_dir f0 _); simplify_eq. exact Hm.
Qed.

Lemma mkdir_parents_builtin (p : PurePath.t) (f f' : fsys) (e : exn) :
  OS.mkdir_parents f p = (Raise e, f') -> builtin_exn e.
Proof. apply mkdir_parents_rev_builtin. Qed.

Lemma touch_builtin (p : PurePath.t) (f f' : fsys) (e : exn) :
  OS.touch f p = (Raise e, f') -> builtin_exn e.
Proof.
  unfold OS.touch. intros H.
  repeat case_match; simplify_eq; exact I.
Qed.

Lemma unlink_builtin (p : PurePath.t) (f f' : fsys) (e : exn) :
  OS.unlink f p = (Raise e, f') -> builtin_exn e.
Proof.
  unfold OS.unlink. intros H.
  repeat case_match; simplify_eq; exact I.
Qed.

(** ** The check of the turn count *)

Lemma builtin_not_helical (e : exn) : builtin_exn e -> not_helical e.
Proof. destruct e; [contradiction | reflexivity]. Qed.

(** One step of a proof that a statement raises only exceptions in [P]. *)
Ltac raises_step :=
  first
    [ apply raises_only_ret
    | apply raises_only_get_fs
    | apply raises_only_print
    | apply raises_only_raise_if
    | apply raises_only_raise
    | apply raises_only_bind; [| intros ?]
    | match goal with
      | |- raises_only _ (if ?c then _ else _) => destruct c
      | |- raises_only _ (match ?x with _ => _ end) => destruct x
      end ].

Lemma validate_geometry_file_not_helical (geometry_file : PurePath.t) :
  raises_only not_helical (validate_geometry_file geometry_file).
Proof.
  unfold validate_geometry_file.
  repeat raises_step; try reflexivity.
  - apply raises_only_query. intros f e H.
    eapply builtin_not_helical, iterdir_builtin, H.
  - apply raises_only_try. intros w e w' _.
    destruct (is_builtin CPermissionError e);
      apply raises_only_raise; reflexivity.
Qed.

Lemma validate_scaffold_sequence_not_helical (a : option scaffold_arg) (name : string) :
  raises_only not_helical (validate_scaffold_sequence a name).
Proof.
  unfold validate_scaffold_sequence.
  repeat raises_step; try reflexivity.
  apply raises_only_try. intros w e w' H.
  destruct (is_builtin CPermissionError e).
  - apply raises_only_raise. reflexivity.
  - revert w e w' H. repeat raises_step; try reflexivity.
    apply raises_only_query. intros f e H.
    eapply builtin_not_helical, read_text_builtin, H.
Qed.

Lemma validate_output_directory_not_helical (d : option PurePath.t) (name : string) :
  raises_only not_helical (validate_output_directory d name).
Proof.
  unfold validate_output_directory.
  repeat raises_step.
  - apply raises_only_try. intros w e w' H.
    assert (He : not_helical e).
    { revert w e w' H. apply raises_only_call. intros f e f' H.
      eapply builtin_not_helical, mkdir_parents_builtin, H. }
    destruct (is_builtin CPermissionError e); [apply raises_only_raise; reflexivity |].
    destruct (is_OSError e); [| exact He].
    destruct (PyStr.contains _ _); apply raises_only_raise; reflexivity.
  - apply raises_only_try. intros w e w' H.
    assert (He : not_helical e).
    { revert w e w' H. repeat raises_step; apply raises_only_call; intros f e f' H.
      + eapply builtin_not_helical, touch_builtin, H.
      + eapply builtin_not_helical, unlink_builtin, H. }
    destruct (is_builtin CPermissionError e); [apply raises_only_raise; reflexivity |].
    exact He.
Qed.

Lemma get_helical_config_not_helical (helical_form : string) (helical_turns : Z) :
  raises_only not_helical (lift (_get_helical_config helical_form helical_turns)).
Proof.
  apply raises_only_lift. intros e.
  unfold _get_helical_config, floor_turns_10_5.
  intros H. repeat case_match; simplify_eq; reflexivity.
Qed.

Lemma geometry_stage_not_helical (E : engine) (gf pd : PurePath.t)
    (cfg : option HelicalConfig) :
  raises_only not_helical (geometry_stage E gf pd cfg).
Proof.
  unfold geometry_stage. apply raises_only_try. intros w e w' _.
  repeat case_match; simplify_eq; apply raises_only_raise; reflexivity.
Qed.

Lemma scaffold_stage_not_helical (a : option scaffold_arg) (name : string)
    (v : option (list Z)) (m n t : Z) :
  raises_only not_helical (scaffold_stage a name v m n t).
Proof.
  unfold scaffold_stage, scaffold_handler. apply raises_only_try. intros w e w' _.
  destruct e as [c msg td sg | c text]; simpl.
  - destruct c; simpl; apply raises_only_raise; reflexivity.
  - apply raises_only_raise; reflexivity.
Qed.

Lemma cage_stage_not_helical (E : engine) (r : request) (g : geometry)
    (s n : seqval) (cfg : option HelicalConfig) (pd : PurePath.t) (k : Z) :
  raises_only not_helical (cage_stage E r g s n cfg pd k).
Proof.
  unfold cage_stage. apply raises_only_try. intros w e w' _.
  apply raises_only_raise. unfold classify_cage_error.
  repeat case_match; reflexivity.
Qed.

Lemma pdb_stage_raises_nothing (P : exn -> Prop) (E : engine) (b : bool)
    (full : string) (cfg : option HelicalConfig) (pd : PurePath.t) :
  raises_only P (pdb_stage E b full cfg pd).
Proof.
  unfold pdb_stage. apply raises_only_try. intros w e w' _.
  repeat raises_step.
Qed.

Lemma check_helical_form_not_helical (helical_form : string) :
  raises_only not_helical (check_helical_form helical_form).
Proof. unfold check_helical_form. apply raises_only_raise_if. reflexivity. Qed.

Lemma check_helical_turns_pass (helical_form : string) (helical_turns required : Z)
    (w : world) :
  min_turns helical_form = Some required ->
  required <= helical_turns ->
  check_helical_turns helical_form helical_turns w = (Ok tt, w).
Proof.
  intros Hmin Hle. unfold check_helical_turns, min_turns_item, bind.
  rewrite Hmin. simpl.
  destruct (Z.ltb_spec helical_turns required); [lia | reflexivity].
Qed.

Lemma check_helical_turns_fail (helical_form : string) (helical_turns required : Z)
    (w : world) :
  min_turns helical_form = Some required ->
  helical_turns < required ->
  check_helical_turns helical_form helical_turns w
    = (Raise (HelicalParameterError helical_form helical_turns required), w).
Proof.
  intros Hmin Hlt. unfold check_helical_turns, min_turns_item, bind.
  rewrite Hmin. simpl.
  destruct (Z.ltb_spec helical_turns required); [reflexivity | lia].
Qed.

Lemma check_helical_form_pass (helical_form : string) (w : world) :
  helical_form ∈ valid_forms -> check_helical_form helical_form w = (Ok tt, w).
Proof.
  intros H. unfold check_helical_form.
  rewrite (bool_decide_eq_true_2 _ H). reflexivity.
Qed.

(** C2, as amended.  Take a valid helical form with minimum [required]
    and a request whose geometry file passes [validate_geometry_file].
    If the turn count is below the minimum, [design_structure] raises
    [HelicalParameterError] for that form, count and minimum, in the world
    left by the geometry validation: nothing after the check has run, in
    particular not [_get_helical_config].  If the turn count is at or
    above the minimum, no exception raised by [design_structure] is a
    [HelicalParameterError], whatever the engine and the world. *)
Theorem helical_turns_check (E : engine) (r : request) (w w1 : world) (required : Z) :
  req_helical_form r ∈ valid_forms ->
  min_turns (req_helical_form r) = Some required ->
  validate_geometry_file (Path (req_geometry_file r)) w = (Ok tt, w1) ->
  (req_helical_turns r < required ->
     design_structure E r w
     = (Raise (HelicalParameterError (req_helical_form r) (req_helical_turns r) required),
        w1)
     /\ is_domain CHelicalParameterError
          (HelicalParameterError (req_helical_form r) (req_helical_turns r) required)
        = true)
  /\ (required <= req_helical_turns r ->
      forall E' w0 e w', design_structure E' r w0 = (Raise e, w') ->
        is_domain CHelicalParameterError e = false).
Proof.
  intros Hform Hmin Hgeo. split.
  - intros Hlt. split; [| reflexivity].
    unfold design_structure, prepare.
    rewrite (bind_Raise _ _ w w1
               (HelicalParameterError (req_helical_form r) (req_helical_turns r) required));
      [reflexivity |].
    rewrite (bind_Ok _ _ _ _ _ Hgeo).
    rewrite (bind_Ok _ _ _ _ _ (check_helical_form_pass _ w1 Hform)).
    apply bind_Raise, check_helical_turns_fail; assumption.
  - intros Hle E' w0 e w'.
    assert (Hall : raises_only not_helical (design_structure E' r)).
    { unfold design_structure. apply raises_only_bind.
      - unfold prepare.
        apply raises_only_bind; [apply validate_geometry_file_not_helical | intros _].
        apply raises_only_bind; [apply check_helical_form_not_helical | intros _].
        apply raises_only_bind; [| intros _].
        { intros w2 e2 w2' H2.
          rewrite (check_helical_turns_pass _ _ _ _ Hmin Hle) in H2. discriminate H2. }
        apply raises_only_bind; [apply validate_scaffold_sequence_not_helical | intros _].
        apply raises_only_bind; [apply validate_output_directory_not_helical | intros pd].
        apply raises_only_bind; [apply get_helical_config_not_helical | intros cfg].
        apply raises_only_bind; [apply geometry_stage_not_helical | intros g].
        apply raises_only_bind; [apply raises_only_raise_if; reflexivity | intros _].
        apply raises_only_ret.
      - intros ctx.
        apply raises_only_bind; [apply scaffold_stage_not_helical | intros sn].
        apply raises_only_bind; [apply cage_stage_not_helical | intros full].
        apply raises_only_bind; [apply pdb_stage_raises_nothing | intros _].
        apply raises_only_ret. }
    apply Hall.
Qed.

Lemma example_geometry_valid :
  validate_geometry_file (Path "tet.ply") example_world = (Ok tt, example_world).
Proof. vm_compute. reflexivity. Qed.

Lemma Bform_valid : "Bform" ∈ valid_forms.
Proof. unfold valid_forms. rewrite !elem_of_cons. tauto. Qed.

Lemma helical_turns_check_witness :
  design_structure example_engine
    (mkrequest "proj" "tet.ply" "Bform" 2 None (Some "out") false true) example_world
  = (Raise (HelicalParameterError "Bform" 2 3), example_world)
  /\ (forall E' w0 e w',
        design_structure E' example_request w0 = (Raise e, w') ->
        is_domain CHelicalParameterError e = false).
Proof.
  split.
  - apply (helical_turns_check example_engine
             (mkrequest "proj" "tet.ply" "Bform" 2 None (Some "out") false true)
             example_world example_world 3 Bform_valid eq_refl example_geometry_valid).
    simpl. lia.
  - apply (helical_turns_check example_engine example_request
             example_world example_world 3 Bform_valid eq_refl example_geometry_valid).
    simpl. lia.
Defined.

(** C2, as stated, fails when the geometry file is rejected first: with
    a missing geometry file and 2 turns of Bform, [design_structure]
    raises [GeometryFileError], not [HelicalParameterError]. *)
Lemma helical_turns_check_counterexample :
  min_turns "Bform" = Some 3
  /\ 2 < 3
  /\ exists e w',
       design_structure example_engine
         (mkrequest "proj" "missing.ply" "Bform" 2 None (Some "out") false true)
         example_world = (Raise e, w')
       /\ is_domain CGeometryFileError e = true
       /\ is_domain CHelicalParameterError e = false.
Proof.
  split; [reflexivity |]. split; [lia |].
  eexists. eexists. split; [vm_compute; reflexivity |]. split; reflexivity.
Qed.

(** ** What a successful [prepare] has done *)

Lemma raise_if_inv_Ok (c : bool) (e : exn) (w w' : world) :
  raise_if c e w = (Ok tt, w') -> c = false /\ w' = w.
Proof. unfold raise_if. destruct c; intros H; inversion H; auto. Qed.

Lemma geometry_stage_inv_Ok (E : engine) (gf pd : PurePath.t)
    (cfg : option HelicalConfig) (w w' : world) (g : geometry) :
  geometry_stage E gf pd cfg w = (Ok g, w') ->
  exists c, cfg = Some c
    /\ ply_to_input E (PurePath.str gf) (PurePath.str pd) (min_edge_len c) (h_form c) w
       = (Ok g, w').
Proof.
  unfold geometry_stage. intros H.
  apply try_except_inv in H as [[a [Hb Ha]] | [[e [w1 [hh [Hb [He H]]]]] | [e [_ [_ H]]]]].
  - inversion Ha; subst a. unfold geometry_body in Hb.
    destruct cfg as [c |]; [| discriminate Hb].
    exists c. split; [reflexivity | exact Hb].
  - repeat case_match; simplify_eq; discriminate H.
  - discriminate H.
Qed.

Lemma check_helical_form_inv_Ok (helical_form : string) (w w' : world) :
  check_helical_form helical_form w = (Ok tt, w') ->
  helical_form ∈ valid_forms /\ w' = w.
Proof.
  unfold check_helical_form. intros H. apply raise_if_inv_Ok in H as [Hc ->].
  split; [| reflexivity].
  apply negb_false_iff, bool_decide_eq_true in Hc. exact Hc.
Qed.

Lemma check_helical_turns_inv_Ok (helical_form : string) (helical_turns : Z)
    (w w' : world) :
  check_helical_turns helical_form helical_turns w = (Ok tt, w') ->
  (exists required, min_turns helical_form = Some required
                    /\ required <= helical_turns)
  /\ w' = w.
Proof.
  unfold check_helical_turns, min_turns_item, bind.
  destruct (min_turns helical_form) as [m |]; simpl; [| discriminate].
  destruct (Z.ltb_spec helical_turns m) as [Hlt | Hge]; intros Hrun; inversion Hrun.
  split; [exists m; split; [reflexivity | lia] | reflexivity].
Qed.

(** A [prepare] that returns has passed every validator, found a helical
    configuration and received a geometry with edges from the engine. *)
Lemma prepare_inv_Ok (E : engine) (r : request) (w w1 : world) (ctx : context) :
  prepare E r w = (Ok ctx, w1) ->
  exists wa wb wc pd c g,
    validate_geometry_file (Path (req_geometry_file r)) w = (Ok tt, wa)
    /\ req_helical_form r ∈ valid_forms
    /\ (exists required, min_turns (req_helical_form r) = Some required
                         /\ required <= req_helical_turns r)
    /\ validate_scaffold_sequence (req_scaffold_sequence r) (req_project_name r) wa
       = (Ok tt, wb)
    /\ validate_output_directory (option_map Path (req_output_dir r))
         (req_project_name r) wb = (Ok pd, wc)
    /\ _get_helical_config (req_helical_form r) (req_helical_turns r) = Ok (Some c)
    /\ ply_to_input E (PurePath.str (Path (req_geometry_file r))) (PurePath.str pd)
         (min_edge_len c) (h_form c) wc = (Ok g, w1)
    /\ count_edges (edges g) <> 0
    /\ ctx = mkcontext (Path (req_geometry_file r)) pd (Some c) g.
Proof.
  unfold prepare. intros H.
  apply bind_inv_Ok in H as [[] [wa [Hgeo H]]].
  apply bind_inv_Ok in H as [[] [wa' [Hform H]]].
  apply check_helical_form_inv_Ok in Hform as [Hform ->].
  apply bind_inv_Ok in H as [[] [wa' [Hturns H]]].
  apply check_helical_turns_inv_Ok in Hturns as [Hturns ->].
  apply bind_inv_Ok in H as [[] [wb [Hscaf H]]].
  apply bind_inv_Ok in H as [pd [wc [Hout H]]].
  apply bind_inv_Ok in H as [cfg [wc' [Hcfg H]]].
  unfold lift in Hcfg. inversion Hcfg as [[Hcfg' Hw]]. subst wc'.
  apply bind_inv_Ok in H as [g [w1' [Hply H]]].
  apply geometry_stage_inv_Ok in Hply as [c [-> Hply]].
  apply bind_inv_Ok in H as [[] [w1'' [Hedges H]]].
  apply raise_if_inv_Ok in Hedges as [Hedges ->].
  inversion H; subst.
  exists wa, wb, wc, pd, c, g.
  repeat split; try assumption.
  apply Z.eqb_neq, Hedges.
Qed.

(** ** After [prepare]: the scaffold, the cage design, the atomic model *)

Lemma append_assoc (s1 s2 s3 : string) : (s1 +:+ s2) +:+ s3 = s1 +:+ (s2 +:+ s3).
Proof.
  induction s1 as [| c s1 IH]; [reflexivity | exact (f_equal (String c) IH)].
Qed.

Lemma pdb_stage_Raise (E : engine) (b : bool) (full : string)
    (cfg : option HelicalConfig) (pd : PurePath.t) (w w' : world) (e : exn) :
  pdb_body E full cfg pd w = (Raise e, w') ->
  pdb_stage E b full cfg pd w
  = (Ok tt, if b then emit (pdb_warning e) w' else w').
Proof.
  intros H. unfold pdb_stage.
  rewrite (try_except_Raise _ _ _ _ _ _ H eq_refl).
  destruct b; [| reflexivity].
  unfold bind, print, emit, pdb_warning. simpl.
  rewrite <- app_assoc. reflexivity.
Qed.

Lemma scaffold_body_eval (a : option scaffold_arg) (name : string)
    (v : option (list Z)) (m n t : Z) (w w' : world) (sn : seqval * seqval) :
  _process_scaffold_sequence a name v w = (Ok sn, w') ->
  scaffold_body a name v m n t w
  = if truthy sn.1 && (len sn.1 <? m)
    then (Raise (too_short_error sn.1 m n t), w')
    else (Ok sn, w').
Proof.
  intros H. unfold scaffold_body. rewrite (bind_Ok _ _ _ _ _ H).
  destruct (truthy sn.1 && (len sn.1 <? m)); reflexivity.
Qed.

Lemma scaffold_stage_Raise (a : option scaffold_arg) (name : string)
    (v : option (list Z)) (m n t : Z) (w w' : world) (e : exn) :
  scaffold_body a name v m n t w = (Raise e, w') ->
  scaffold_stage a name v m n t w
  = (Raise (if is_domain CScaffoldSequenceError e then e
            else ScaffoldSequenceError "Error processing scaffold sequence" ""
                   (str_exn e)), w').
Proof.
  intros H. unfold scaffold_stage, try_except, scaffold_handler. rewrite H.
  destruct (is_domain CScaffoldSequenceError e); reflexivity.
Qed.

Lemma scaffold_stage_only_scaffold_errors (a : option scaffold_arg) (name : string)
    (v : option (list Z)) (m n t : Z) :
  raises_only (fun e => is_domain CScaffoldSequenceError e = true)
    (scaffold_stage a name v m n t).
Proof.
  unfold scaffold_stage, scaffold_handler. apply raises_only_try. intros w e w' _.
  destruct (is_domain CScaffoldSequenceError e) eqn:He;
    apply raises_only_raise; [exact He | reflexivity].
Qed.

Lemma scaffold_stage_inv_Ok (a : option scaffold_arg) (name : string)
    (v : option (list Z)) (m n t : Z) (w w' : world) (sn : seqval * seqval) :
  scaffold_stage a name v m n t w = (Ok sn, w') ->
  scaffold_body a name v m n t w = (Ok sn, w').
Proof.
  unfold scaffold_stage. intros H.
  apply try_except_inv in H as [[x [Hb Hx]] | [[e [w1 [hh [Hb [He H]]]]] | [e [_ [_ H]]]]].
  - now inversion Hx; subst.
  - unfold scaffold_handler in He.
    destruct (is_domain CScaffoldSequenceError e); simplify_eq.
  - discriminate H.
Qed.

Lemma cage_stage_inv_Ok (E : engine) (r : request) (g : geometry)
    (s n : seqval) (cfg : option HelicalConfig) (pd : PurePath.t) (k : Z)
    (w w' : world) (full : string) :
  cage_stage E r g s n cfg pd k w = (Ok full, w') ->
  cage_body E r g s n cfg pd w = (Ok full, w').
Proof.
  unfold cage_stage. intros H.
  apply try_except_inv in H as [[x [Hb Hx]] | [[e [w1 [hh [Hb [He H]]]]] | [e [_ [_ H]]]]].
  - now inversion Hx; subst.
  - simplify_eq.
  - discriminate H.
Qed.

Lemma design_structure_inv_Ok (E : engine) (r : request) (w wf : world)
    (res : DesignResult) :
  design_structure E r w = (Ok res, wf) -> other_stages_returned E r w wf res.
Proof.
  unfold design_structure. intros H.
  apply bind_inv_Ok in H as [ctx [w1 [Hprep H]]].
  apply prepare_inv_Ok in Hprep
    as (wa & wb & wc & pd & c & g & Hgeo & _ & _ & Hscaf & Hout & Hcfg & Hply & _ & ->).
  simpl in H.
  apply bind_inv_Ok in H as [sn [w2 [Hsn H]]].
  apply scaffold_stage_inv_Ok in Hsn.
  apply bind_inv_Ok in H as [full [w3 [Hfull H]]].
  apply cage_stage_inv_Ok in Hfull.
  apply bind_inv_Ok in H as [[] [w4 [Hpdb H]]].
  inversion H; subst.
  exists wa, wb, wc, pd, c, g, w1, sn, w2, full, w3.
  repeat (split; [assumption || reflexivity |]).
  unfold pdb_stage in Hpdb.
  apply try_except_inv in Hpdb
    as [[x [Hb Hx]] | [[e [w5 [hh [Hb [He Hh]]]]] | [e [_ [_ Hx]]]]].
  - left. destruct x. exact Hb.
  - right. exists e, w5. split; [exact Hb |].
    pose proof (pdb_stage_Raise E (req_print_output r) _ _ _ _ _ _ Hb) as Hst.
    unfold pdb_stage in Hst.
    rewrite (try_except_Raise _ _ _ _ _ _ Hb He) in Hst.
    rewrite Hh in Hst. now inversion Hst.
  - discriminate Hx.
Qed.

Section AfterPrepare.

Variables (E : engine) (r : request) (w w1 : world) (ctx : context).
Hypothesis Hprep : prepare E r w = (Ok ctx, w1).

Let g := ctx_geometry ctx.
Let project_dir := ctx_project_dir ctx.
Let helical_config := ctx_helical_config ctx.
Let num_edges := count_edges (edges g).
Let total_edge_length := total_length (edge_length_vec g).
Let min_scaffold_length := 2 * total_edge_length.

(** The scaffold [try] of this request, and its body. *)
Let scaffold : M (seqval * seqval) :=
  scaffold_stage (req_scaffold_sequence r) (req_project_name r)
    (edge_length_vec g) min_scaffold_length num_edges total_edge_length.
Let scaffold_try_body : M (seqval * seqval) :=
  scaffold_body (req_scaffold_sequence r) (req_project_name r)
    (edge_length_vec g) min_scaffold_length num_edges total_edge_length.

Lemma design_structure_after_prepare :
  design_structure E r w
  = (let* sn := scaffold in
     let* full_file_name :=
       cage_stage E r g sn.1 sn.2 helical_config project_dir num_edges in
     run pdb_stage E (req_print_output r) full_file_name helical_config project_dir
     then
     ret (DesignResult_init (req_project_name r) (PurePath.str project_dir)
            full_file_name)) w1.
Proof. unfold design_structure. rewrite (bind_Ok _ _ _ _ _ Hprep). reflexivity. Qed.

(** C3.  Suppose the request has reached the scaffold stage and
    [_process_scaffold_sequence] has returned the sequence [seq]; let [L]
    be its length and [T] the sum of the edge lengths reported by the
    geometry conversion.  If [seq] is non-empty and [L < 2 * T],
    [design_structure] raises a [ScaffoldSequenceError] whose message
    gives the provided length [L] and the required length [2 * T], and
    whose technical detail gives [2 * T], the number of edges and [T].
    If [seq] is empty or [2 * T <= L], the scaffold stage returns the
    resolved pair: the length check raises nothing. *)
Theorem scaffold_length_check (seq name : seqval) (w2 : world) :
  _process_scaffold_sequence (req_scaffold_sequence r) (req_project_name r)
    (edge_length_vec g) w1 = (Ok (seq, name), w2) ->
  (truthy seq = true -> len seq < 2 * total_edge_length ->
     let e := too_short_error seq (2 * total_edge_length) num_edges total_edge_length in
     design_structure E r w = (Raise e, w2)
     /\ is_domain CScaffoldSequenceError e = true
     /\ exn_message e
        = "Scaffold sequence problem: Scaffold sequence too short (Provided: "
          +:+ PyStr.of_int (len seq) +:+ " nt, Required: ≥"
          +:+ PyStr.of_int (2 * total_edge_length) +:+ " nt)"
     /\ exn_technical_details e
        = "Geometry requires ~" +:+ PyStr.of_int (2 * total_edge_length)
          +:+ " nucleotides (" +:+ PyStr.of_int num_edges
          +:+ " edges, total length " +:+ Binary64.format_1f total_edge_length
          +:+ " bp). Rule of thumb: scaffold length ≥ 2 × total edge length.")
  /\ (truthy seq = false \/ 2 * total_edge_length <= len seq ->
      scaffold w1 = (Ok (seq, name), w2)).
Proof.
  intros Hres.
  pose proof (scaffold_body_eval _ _ _ min_scaffold_length num_edges
                total_edge_length _ _ _ Hres) as Hbody.
  simpl in Hbody. split.
  - intros Hseq Hlt e.
    split; [| split; [reflexivity | split]].
    2:{ unfold e, too_short_error, ScaffoldSequenceError. simpl.
        rewrite !append_assoc. reflexivity. }
    2:{ reflexivity. }
    rewrite design_structure_after_prepare. apply bind_Raise.
    unfold scaffold. rewrite Hseq in Hbody.
    destruct (Z.ltb_spec (len seq) min_scaffold_length) as [_ | Hge];
      [| unfold min_scaffold_length in Hge; lia].
    rewrite (scaffold_stage_Raise _ _ _ _ _ _ _ _ _ Hbody). reflexivity.
  - intros Hok. unfold scaffold, scaffold_stage.
    apply try_except_Ok. fold scaffold_try_body. unfold scaffold_try_body.
    rewrite Hbody.
    destruct Hok as [-> | Hge]; [reflexivity |].
    destruct (Z.ltb_spec (len seq) min_scaffold_length) as [Hlt | _];
      [unfold min_scaffold_length in Hlt; lia |].
    rewrite andb_false_r. reflexivity.
Qed.

(** C10.  Suppose the request has reached the scaffold stage and the
    body of its [try] (the resolution of the scaffold, then the length
    check) raises [e].  If [e] is a [ScaffoldSequenceError] it leaves
    [design_structure] unchanged; otherwise [design_structure] raises a
    [ScaffoldSequenceError] whose issue is "Error processing scaffold
    sequence" and whose technical detail is the text of [e].  Whatever
    the world, the scaffold stage raises nothing but
    [ScaffoldSequenceError]. *)
Theorem scaffold_errors_wrapped (e : exn) (w2 : world) :
  scaffold_try_body w1 = (Raise e, w2) ->
  let e' := if is_domain CScaffoldSequenceError e then e
            else ScaffoldSequenceError "Error processing scaffold sequence" ""
                   (str_exn e) in
  scaffold w1 = (Raise e', w2)
  /\ design_structure E r w = (Raise e', w2)
  /\ is_domain CScaffoldSequenceError e' = true
  /\ (is_domain CScaffoldSequenceError e = true -> e' = e)
  /\ (is_domain CScaffoldSequenceError e = false ->
      exn_message e' = "Scaffold sequence problem: Error processing scaffold sequence"
      /\ exn_technical_details e' = str_exn e)
  /\ (forall w0 e0 w0', scaffold w0 = (Raise e0, w0') ->
      is_domain CScaffoldSequenceError e0 = true).
Proof.
  intros Hbody e'.
  assert (Hstage : scaffold w1 = (Raise e', w2))
    by (apply scaffold_stage_Raise, Hbody).
  split; [exact Hstage |]. split.
  { rewrite design_structure_after_prepare. apply bind_Raise, Hstage. }
  split.
  { unfold e'. destruct (is_domain CScaffoldSequenceError e) eqn:He;
      [exact He | reflexivity]. }
  split; [intros He; unfold e'; now rewrite He |].
  split; [intros He; unfold e'; rewrite He; split; reflexivity |].
  apply scaffold_stage_only_scaffold_errors.
Qed.

(** C5.  Suppose the request has passed the scaffold stage and the call
    of [DX_cage_design] raises [e].  Then [design_structure] raises one
    error, chosen from the lower-cased text of [e]: a
    [ScaffoldSequenceError] when the text holds "scaffold" and one of
    "short" and "length"; otherwise a [StapleGenerationError] when it
    holds "staple"; otherwise a [DesignConstraintError] for the routing
    when it holds "routing" or "path"; otherwise a [DesignConstraintError]
    for the design algorithm.  In each case the technical detail of the
    error ends with the text of [e]. *)
Theorem cage_error_classified (sn : seqval * seqval) (w2 : world) (e : exn)
    (w3 : world) :
  scaffold w1 = (Ok sn, w2) ->
  cage_body E r g sn.1 sn.2 helical_config project_dir w2 = (Raise e, w3) ->
  let error_str := PyStr.lower (str_exn e) in
  let has_scaffold :=
    PyStr.contains "scaffold" error_str
    && (PyStr.contains "short" error_str || PyStr.contains "length" error_str) in
  let has_staple := PyStr.contains "staple" error_str in
  let has_routing :=
    PyStr.contains "routing" error_str || PyStr.contains "path" error_str in
  let e' := classify_cage_error e sn.1 num_edges (req_project_name r)
              (req_helical_form r) (req_helical_turns r) in
  design_structure E r w = (Raise e', w3)
  /\ (has_scaffold = true ->
      is_domain CScaffoldSequenceError e' = true
      /\ exn_technical_details e' = "Design algorithm error: " +:+ str_exn e)
  /\ (has_scaffold = false -> has_staple = true ->
      is_domain CStapleGenerationError e' = true
      /\ exn_technical_details e' = "Error during staple generation: " +:+ str_exn e)
  /\ (has_scaffold = false -> has_staple = false -> has_routing = true ->
      is_domain CDesignConstraintError e' = true
      /\ exn_message e'
         = "Design constraint violation: Scaffold routing failed" +:+ nl
           +:+ "Geometry: Edges: " +:+ PyStr.of_int num_edges
           +:+ ", Form: " +:+ req_helical_form r
      /\ exn_technical_details e'
         = "Cannot find valid scaffold path through geometry: " +:+ str_exn e)
  /\ (has_scaffold = false -> has_staple = false -> has_routing = false ->
      is_domain CDesignConstraintError e' = true
      /\ exn_message e'
         = "Design constraint violation: Design algorithm failed" +:+ nl
           +:+ "Geometry: Project: " +:+ req_project_name r
           +:+ ", Form: " +:+ req_helical_form r
           +:+ ", Turns: " +:+ PyStr.of_int (req_helical_turns r)
      /\ exn_technical_details e'
         = "Unexpected error in DX_cage_design: " +:+ str_exn e).
Proof.
  intros Hsn Hcage error_str has_scaffold has_staple has_routing e'.
  split.
  { rewrite design_structure_after_prepare.
    rewrite (bind_Ok _ _ _ _ _ Hsn). apply bind_Raise.
    unfold cage_stage.
    rewrite (try_except_Raise _ _ _ _ _ _ Hcage eq_refl). reflexivity. }
  unfold e', classify_cage_error.
  fold error_str. fold has_scaffold. fold has_staple. fold has_routing.
  repeat split; intros; repeat
    match goal with H : _ = true |- _ => rewrite H | H : _ = false |- _ => rewrite H end;
    reflexivity.
Qed.

(** C4, as amended.  Suppose the request has passed the cage design and
    the call of [pdbgen] raises [e].  Then [design_structure] returns
    a [DesignResult] for the project, the project directory and the stem
    given by the engine; the exception is not raised.  When
    [print_output] is true two lines are printed, a warning with the text
    of [e] and a note that the other outputs were written; when it is
    false nothing is printed.  In every run of [design_structure] that
    returns, every other stage has returned: no exception of another
    stage is dropped. *)
Theorem pdb_failure_not_fatal (sn : seqval * seqval) (w2 : world)
    (full : string) (w3 : world) (e : exn) (w4 : world) :
  scaffold w1 = (Ok sn, w2) ->
  cage_stage E r g sn.1 sn.2 helical_config project_dir num_edges w2 = (Ok full, w3) ->
  pdb_body E full helical_config project_dir w3 = (Raise e, w4) ->
  design_structure E r w
  = (Ok (DesignResult_init (req_project_name r) (PurePath.str project_dir) full),
     if req_print_output r then emit (pdb_warning e) w4 else w4)
  /\ pdb_warning e
     = [ "Warning: PDB file generation failed: " +:+ str_exn e;
         "Other output files (CSV, CanDo) were generated successfully." ]
  /\ (forall E' r' w' res wf,
        design_structure E' r' w' = (Ok res, wf) ->
        other_stages_returned E' r' w' wf res).
Proof.
  intros Hsn Hcage Hpdb. split; [| split; [reflexivity |]].
  - rewrite design_structure_after_prepare.
    rewrite (bind_Ok _ _ _ _ _ Hsn).
    rewrite (bind_Ok _ _ _ _ _ Hcage).
    rewrite (bind_Ok _ _ _ _ _
               (pdb_stage_Raise E (req_print_output r) _ _ _ _ _ _ Hpdb)).
    reflexivity.
  - intros E' r' w' res wf. apply design_structure_inv_Ok.
Qed.

End AfterPrepare.

(** ** Runs of the example worlds *)

Lemma example_prepare_short :
  prepare example_engine example_request_short example_world
  = (Ok example_context, example_prepared).
Proof. vm_compute. reflexivity. Qed.

Lemma example_prepare_unreadable :
  prepare example_engine example_request_named_file example_world_unreadable
  = (Ok example_context, example_prepared_unreadable).
Proof. vm_compute. reflexivity. Qed.

Lemma example_prepare_cage_fails :
  prepare example_engine_cage_fails example_request example_world
  = (Ok example_context, example_prepared).
Proof. vm_compute. reflexivity. Qed.

Lemma example_prepare_pdb_fails :
  prepare example_engine_pdb_fails example_request example_world
  = (Ok example_context, example_prepared).
Proof. vm_compute. reflexivity. Qed.

Lemma scaffold_length_check_witness :
  truthy (Str "ATGC") = true
  /\ len (Str "ATGC") < 2 * 126
  /\ design_structure example_engine example_request_short example_world
     = (Raise (too_short_error (Str "ATGC") 252 3 126), example_prepared)
  /\ exn_message (too_short_error (Str "ATGC") 252 3 126)
     = "Scaffold sequence problem: Scaffold sequence too short (Provided: 4 nt, Required: ≥252 nt)"
  /\ exn_technical_details (too_short_error (Str "ATGC") 252 3 126)
     = "Geometry requires ~252 nucleotides (3 edges, total length 126.0 bp). Rule of thumb: scaffold length ≥ 2 × total edge length.".
Proof.
  split; [reflexivity |]. split; [reflexivity |].
  pose proof (proj1 (scaffold_length_check example_engine example_request_short
                       example_world example_prepared example_context
                       example_prepare_short (Str "ATGC") (Str "proj")
                       example_prepared ltac:(vm_compute; reflexivity))
                eq_refl eq_refl) as H.
  destruct H as (H1 & _ & H3 & H4).
  split; [exact H1 |]. split; [exact H3 | exact H4].
Defined.

Lemma scaffold_errors_wrapped_witness :
  design_structure example_engine example_request_named_file example_world_unreadable
  = (Raise (ScaffoldSequenceError "Error processing scaffold sequence" ""
              "[Errno 13] Permission denied: 'GATTACA'"),
     example_prepared_unreadable)
  /\ exn_technical_details
       (ScaffoldSequenceError "Error processing scaffold sequence" ""
          "[Errno 13] Permission denied: 'GATTACA'")
     = "[Errno 13] Permission denied: 'GATTACA'".
Proof.
  pose proof (scaffold_errors_wrapped example_engine example_request_named_file
                example_world_unreadable example_prepared_unreadable example_context
                example_prepare_unreadable
                (Builtin CPermissionError "[Errno 13] Permission denied: 'GATTACA'")
                example_prepared_unreadable ltac:(vm_compute; reflexivity)) as H.
  destruct H as (_ & H2 & _ & _ & H5 & _).
  split; [exact H2 | exact (proj2 (H5 eq_refl))].
Defined.

Lemma cage_error_classified_witness :
  design_structure example_engine_cage_fails example_request example_world
  = (Raise (StapleGenerationError "Staple sequence assignment"
              "Error during staple generation: Staple too long on edge 3"),
     example_prepared).
Proof.
  exact (proj1 (cage_error_classified example_engine_cage_fails example_request
                  example_world example_prepared example_context
                  example_prepare_cage_fails (EmptyList, EmptyList) example_prepared
                  (Builtin CException "Staple too long on edge 3") example_prepared
                  ltac:(vm_compute; reflexivity) ltac:(vm_compute; reflexivity))).
Defined.

Lemma pdb_failure_not_fatal_witness :
  design_structure example_engine_pdb_fails example_request example_world
  = (Ok (DesignResult_init "proj" "out/proj" "tet_full"),
     emit [ "Warning: PDB file generation failed: no atoms";
            "Other output files (CSV, CanDo) were generated successfully." ]
       example_prepared).
Proof.
  exact (proj1 (pdb_failure_not_fatal example_engine_pdb_fails example_request
                  example_world example_prepared example_context
                  example_prepare_pdb_fails (EmptyList, EmptyList) example_prepared
                  "tet_full" example_prepared (Builtin CException "no atoms")
                  example_prepared
                  ltac:(vm_compute; reflexivity) ltac:(vm_compute; reflexivity)
                  ltac:(vm_compute; reflexivity))).
Defined.

(** C4, as stated, fails on the warning: with [print_output] false, the
    atomic-model step raises, [design_structure] returns, and nothing is
    printed. *)
Lemma pdb_failure_not_fatal_counterexample :
  req_print_output example_request_quiet = false
  /\ pdb_body example_engine_pdb_fails "tet_full"
       (Some (mkHelicalConfig 42 false 1)) (Path "out" // "proj") example_prepared
     = (Raise (Builtin CException "no atoms"), example_prepared)
  /\ design_structure example_engine_pdb_fails example_request_quiet example_world
     = (Ok (DesignResult_init "proj" "out/proj" "tet_full"), example_prepared)
  /\ stdout example_prepared = [].
Proof. repeat split; vm_compute; reflexivity. Qed.

(** ** The output directory *)

Lemma test_file_key (f : fsys) (p : PurePath.t) :
  OS.key f (p // ".write_test") = (OS.key f p ++ [".write_test"])%list.
Proof.
  unfold OS.key, PurePath.joinpath, PurePath.is_absolute. simpl.
  destruct (bool_decide (PurePath.root p = "")); simpl;
    [rewrite app_assoc |]; reflexivity.
Qed.

Lemma node_with_nodes (f : fsys) (m : gmap (list string) fnode) (n : nat)
    (k : list string) :
  k <> [] -> OS.node (OS.with_nodes f m n) k = m !! k.
Proof. destruct k; [congruence | reflexivity]. Qed.

Lemma node_nonroot (f : fsys) (k : list string) :
  k <> [] -> OS.node f k = nodes f !! k.
Proof. destruct k; [congruence | reflexivity]. Qed.

Lemma with_nodes_same (f : fsys) (m : gmap (list string) fnode) (n : nat) :
  OS.with_nodes (OS.with_nodes f m n) (nodes f) (free f) = f.
Proof. destruct f. reflexivity. Qed.

Lemma removelast_neq (k : list string) : k <> [] -> List.removelast k <> k.
Proof.
  intros Hk Heq. apply (f_equal (@List.length string)) in Heq.
  destruct (exists_last Hk) as [l [x ->]].
  rewrite removelast_last, length_app in Heq. simpl in Heq. lia.
Qed.

Lemma mkdir1_settled (f f' : fsys) (p : PurePath.t) :
  OS.mkdir1 f p = (Ok tt, f') -> settled f' p.
Proof.
  unfold OS.mkdir1, settled. intros H.
  destruct (OS.node f (List.removelast (OS.key f p))) as [[| c] |] eqn:Hup;
    try discriminate H.
  destruct (OS.node f (OS.key f p)) eqn:Hk; [discriminate H |].
  destruct (negb (writable f _)); [discriminate H |].
  destruct (free f) as [| n]; [discriminate H |].
  inversion H; subst f'. clear H.
  assert (Hne : OS.key f p <> []).
  { intros Heq. rewrite Heq in Hk. discriminate Hk. }
  change (OS.key (OS.with_nodes f (<[OS.key f p:=Dir]> (nodes f)) n) p)
    with (OS.key f p).
  split.
  - rewrite node_with_nodes by exact Hne. apply lookup_insert_eq.
  - destruct (List.removelast (OS.key f p)) as [| x up] eqn:Hr; [discriminate |].
    rewrite node_with_nodes by discriminate.
    rewrite lookup_insert_ne.
    + simpl in Hup. rewrite Hup. discriminate.
    + rewrite <- Hr. intros Heq. symmetry in Heq. exact (removelast_neq _ Hne Heq).
Qed.

Lemma mkdir1_Raise (f f' : fsys) (p : PurePath.t) (e : exn) :
  OS.mkdir1 f p = (Raise e, f') ->
  f' = f
  /\ is_OSError e = true
  /\ (is_builtin CFileNotFoundError e = false ->
      OS.node f (List.removelast (OS.key f p)) <> None).
Proof.
  unfold OS.mkdir1. intros H.
  repeat case_match; simplify_eq;
    (split; [reflexivity | split; [reflexivity |]]);
    intros Hfnf; try discriminate Hfnf; congruence.
Qed.

Lemma mkdir_exist_ok_settled (f f' : fsys) (p : PurePath.t) :
  OS.node f (List.removelast (OS.key f p)) <> None ->
  OS.mkdir_exist_ok f p = (Ok tt, f') -> settled f' p.
Proof.
  unfold OS.mkdir_exist_ok. intros Hup H.
  destruct (OS.mkdir1 f p) as [[[] | e] f0] eqn:Hm.
  - inversion H; subst. eapply mkdir1_settled, Hm.
  - apply mkdir1_Raise in Hm as [-> _].
    destruct (is_OSError e && OS.is_dir f p) eqn:Hc; [| discriminate H].
    inversion H; subst f'. apply andb_true_iff in Hc as [_ Hd].
    apply bool_decide_eq_true in Hd. split; assumption.
Qed.

Lemma parent_key (f : fsys) (r x : string) (up : list string) :
  List.removelast (OS.key f (PurePath.mk r (List.rev (x :: up))))
  = OS.key f (PurePath.mk r (List.rev up)).
Proof.
  unfold OS.key, PurePath.is_absolute. simpl.
  destruct (negb (bool_decide (r = ""))).
  - apply removelast_last.
  - rewrite app_assoc. apply removelast_last.
Qed.

Lemma mkdir_parents_rev_settled (r : string) (rev_parts : list string) (f f' : fsys) :
  OS.mkdir_parents_rev f r rev_parts = (Ok tt, f') ->
  settled f' (PurePath.mk r (List.rev rev_parts)).
Proof.
  revert f f'. induction rev_parts as [| x up IH]; intros f f' H.
  - simpl in H.
    destruct (OS.mkdir1 f _) as [[[] | e] f0] eqn:Hm.
    + inversion H; subst. eapply mkdir1_settled, Hm.
    + apply mkdir1_Raise in Hm as (-> & _ & Hup).
      destruct (is_builtin CFileNotFoundError e); [discriminate H |].
      destruct (is_OSError e && OS.is_dir f _) eqn:Hc; [| discriminate H].
      inversion H; subst f'. apply andb_true_iff in Hc as [_ Hd].
      apply bool_decide_eq_true in Hd. split; [exact Hd | exact (Hup eq_refl)].
  - cbn [OS.mkdir_parents_rev] in H.
    destruct (OS.mkdir1 f _) as [[[] | e] f0] eqn:Hm.
    + inversion H; subst. eapply mkdir1_settled, Hm.
    + apply mkdir1_Raise in Hm as (-> & _ & Hup).
      destruct (is_builtin CFileNotFoundError e).
      * destruct (OS.mkdir_parents_rev f r up) as [[[] | e1] f1] eqn:Hrec;
          [| discriminate H].
        apply IH in Hrec as [Hdir _].
        eapply mkdir_exist_ok_settled; [| exact H].
        rewrite parent_key, Hdir. discriminate.
      * destruct (is_OSError e && OS.is_dir f _) eqn:Hc; [| discriminate H].
        inversion H; subst f'. apply andb_true_iff in Hc as [_ Hd].
        apply bool_decide_eq_true in Hd. split; [exact Hd | exact (Hup eq_refl)].
Qed.

Lemma path_eta (p : PurePath.t) :
  PurePath.mk (PurePath.root p) (List.rev (List.rev (PurePath.parts p))) = p.
Proof. destruct p. simpl. now rewrite rev_involutive. Qed.

Lemma mkdir_parents_settled (p : PurePath.t) (f f' : fsys) :
  OS.mkdir_parents f p = (Ok tt, f') -> settled f' p.
Proof.
  unfold OS.mkdir_parents. intros H.
  apply mkdir_parents_rev_settled in H. now rewrite path_eta in H.
Qed.

Lemma mkdir_parents_rev_unfold (f : fsys) (r : string) (rev_parts : list string) :
  OS.mkdir_parents_rev f r rev_parts
  = let p := PurePath.mk r (List.rev rev_parts) in
    match OS.mkdir1 f p with
    | (Ok tt, f') => (Ok tt, f')
    | (Raise e, f') =>
        if is_builtin CFileNotFoundError e then
          match rev_parts with
          | [] => (Raise e, f')
          | _ :: up =>
              match OS.mkdir_parents_rev f' r up with
              | (Ok tt, f'') => OS.mkdir_exist_ok f'' p
              | (Raise e', f'') => (Raise e', f'')
              end
          end
        else if is_OSError e && OS.is_dir f' p then (Ok tt, f')
        else (Raise e, f')
    end.
Proof. destruct rev_parts; reflexivity. Qed.

(** A settled directory is accepted as it is. *)
Lemma mkdir_parents_stable (p : PurePath.t) (f : fsys) :
  settled f p -> OS.mkdir_parents f p = (Ok tt, f).
Proof.
  intros [Hdir Hup]. unfold OS.mkdir_parents.
  assert (Hone : exists e, OS.mkdir1 f p = (Raise e, f)
                           /\ is_builtin CFileNotFoundError e = false
                           /\ is_OSError e = true).
  { unfold OS.mkdir1.
    destruct (OS.node f (List.removelast (OS.key f p))) as [[| c] |];
      [| | congruence].
    - rewrite Hdir. eexists. repeat split.
    - eexists. repeat split. }
  destruct Hone as (e & Hm & Hfnf & Hos).
  assert (Hd : OS.is_dir f p = true) by (apply bool_decide_eq_true, Hdir).
  rewrite mkdir_parents_rev_unfold. cbv zeta.
  rewrite path_eta, Hm, Hfnf, Hos, Hd. reflexivity.
Qed.

Lemma mkdir1_cwd (f f' : fsys) (p : PurePath.t) (res : result unit) :
  OS.mkdir1 f p = (res, f') -> cwd f' = cwd f.
Proof.
  unfold OS.mkdir1. intros H. repeat case_match; simplify_eq; reflexivity.
Qed.

Lemma mkdir_exist_ok_cwd (f f' : fsys) (p : PurePath.t) (res : result unit) :
  OS.mkdir_exist_ok f p = (res, f') -> cwd f' = cwd f.
Proof.
  unfold OS.mkdir_exist_ok. intros H.
  destruct (OS.mkdir1 f p) as [[[] | e] f0] eqn:Hm; apply mkdir1_cwd in Hm;
    repeat case_match; simplify_eq; exact Hm.
Qed.

Lemma mkdir_parents_rev_cwd (r : string) (rev_parts : list string) (f f' : fsys)
    (res : result unit) :
  OS.mkdir_parents_rev f r rev_parts = (res, f') -> cwd f' = cwd f.
Proof.
  revert f f' res. induction rev_parts as [| x up IH]; intros f f' res;
    rewrite mkdir_parents_rev_unfold; cbv zeta;
    destruct (OS.mkdir1 f _) as [[[] | e] f0] eqn:Hm; apply mkdir1_cwd in Hm;
    intros H.
  - simplify_eq. exact Hm.
  - repeat case_match; simplify_eq; exact Hm.
  - simplify_eq. exact Hm.
  - destruct (is_builtin CFileNotFoundError e).
    + destruct (OS.mkdir_parents_rev f0 r up) as [[[] | e1] f1] eqn:Hrec;
        apply IH in Hrec.
      * apply mkdir_exist_ok_cwd in H. congruence.
      * simplify_eq. congruence.
    + repeat case_match; simplify_eq; exact Hm.
Qed.

Lemma unlink_nonroot (f : fsys) (p : PurePath.t) :
  OS.key f p <> [] ->
  OS.unlink f p
  = match OS.node f (OS.key f p) with
    | Some Dir =>
        (Raise (Builtin CIsADirectoryError
                  ("[Errno 21] Is a directory: " +:+ OS.quoted p)), f)
    | None =>
        (Raise (Builtin CFileNotFoundError
                  ("[Errno 2] No such file or directory: " +:+ OS.quoted p)), f)
    | Some (File _) =>
        if negb (writable f (List.removelast (OS.key f p)))
        then (Raise (Builtin CPermissionError
                       ("[Errno 13] Permission denied: " +:+ OS.quoted p)), f)
        else (Ok tt, OS.with_nodes f (delete (OS.key f p) (nodes f)) (S (free f)))
    end.
Proof.
  intros Hk. unfold OS.unlink.
  destruct (OS.key f p) as [| x l]; [congruence | reflexivity].
Qed.

(** What a passed write probe leaves: the sentinel is gone, the directory
    is writable and one more entry can be created. *)
Lemma probe_inv (f1 f2 f3 : fsys) (p : PurePath.t) :
  OS.touch f1 (p // ".write_test") = (Ok tt, f2) ->
  OS.unlink f2 (p // ".write_test") = (Ok tt, f3) ->
  cwd f3 = cwd f1
  /\ writable f3 = writable f1
  /\ nodes f3 = delete (OS.key f1 p ++ [".write_test"])%list (nodes f1)
  /\ writable f1 (OS.key f1 p) = true
  /\ free f3 <> 0%nat.
Proof.
  intros Ht Hu.
  assert (Hne : forall f, OS.key f (p // ".write_test") <> []).
  { intros f. rewrite test_file_key. apply not_eq_sym, app_cons_not_nil. }
  rewrite unlink_nonroot in Hu by apply Hne.
  unfold OS.touch in Ht.
  rewrite (node_nonroot _ _ (Hne f1)) in Ht.
  rewrite (node_nonroot _ _ (Hne f2)) in Hu.
  rewrite !test_file_key, !removelast_last in *.
  destruct (nodes f1 !! (OS.key f1 p ++ [".write_test"])%list) as [n |] eqn:Hk.
  - destruct (writable f1 (OS.key f1 p ++ [".write_test"])%list);
      [| destruct n; discriminate Ht].
    inversion Ht; subst f2. rewrite Hk in Hu.
    destruct n as [| c]; [discriminate Hu |].
    destruct (writable f1 (OS.key f1 p)); [| discriminate Hu].
    inversion Hu; subst f3. simpl. repeat split; discriminate.
  - destruct (OS.node f1 (OS.key f1 p)) as [[| c] |]; try discriminate Ht.
    destruct (writable f1 (OS.key f1 p)) eqn:Hw; [| discriminate Ht].
    destruct (free f1) as [| n]; [discriminate Ht |].
    inversion Ht; subst f2. clear Ht.
    change (OS.key (OS.with_nodes f1 _ n) p) with (OS.key f1 p) in Hu.
    simpl in Hu. rewrite lookup_insert_eq, Hw in Hu. simpl in Hu.
    inversion Hu; subst f3. simpl.
    rewrite delete_insert_eq. repeat split; discriminate.
Qed.

(** From such a state the probe passes again and restores the state. *)
Lemma probe_again (f : fsys) (p : PurePath.t) :
  nodes f !! (OS.key f p ++ [".write_test"])%list = None ->
  OS.node f (OS.key f p) = Some Dir ->
  writable f (OS.key f p) = true ->
  free f <> 0%nat ->
  exists f', OS.touch f (p // ".write_test") = (Ok tt, f')
             /\ OS.unlink f' (p // ".write_test") = (Ok tt, f).
Proof.
  intros Hk Hdir Hw Hfree.
  assert (Hne : forall f, OS.key f (p // ".write_test") <> []).
  { intros f0. rewrite test_file_key. apply not_eq_sym, app_cons_not_nil. }
  destruct (free f) as [| n] eqn:Hn; [congruence |].
  exists (OS.with_nodes f
            (<[(OS.key f p ++ [".write_test"])%list := File ""]> (nodes f)) n).
  split.
  - unfold OS.touch. rewrite (node_nonroot _ _ (Hne f)).
    rewrite !test_file_key, !removelast_last, Hk, Hdir, Hw, Hn. reflexivity.
  - rewrite unlink_nonroot by apply Hne.
    rewrite (node_nonroot _ _ (Hne _)).
    rewrite !test_file_key, !removelast_last.
    change (OS.key (OS.with_nodes f _ n) p) with (OS.key f p).
    simpl. rewrite lookup_insert_eq, Hw. simpl.
    rewrite delete_insert_id by exact Hk.
    rewrite <- Hn. f_equal. apply with_nodes_same.
Qed.

Lemma call_inv {A} (op : fsys -> result A * fsys) (w w' : world) (res : result A) :
  OS.call op w = (res, w') ->
  exists f', op (fs w) = (res, f') /\ w' = mkworld f' (stdout w).
Proof.
  unfold OS.call. destruct (op (fs w)) as [r f']. intros H.
  inversion H; subst. exists f'. split; reflexivity.
Qed.

Lemma call_run {A} (op : fsys -> result A * fsys) (w : world) (res : result A)
    (f' : fsys) :
  op (fs w) = (res, f') -> OS.call op w = (res, mkworld f' (stdout w)).
Proof. intros H. unfold OS.call. now rewrite H. Qed.

(** What a successful validation of the output directory has done. *)
Lemma validate_output_directory_inv_Ok (output_dir : option PurePath.t)
    (project_name : string) (w w1 : world) (pd : PurePath.t) :
  validate_output_directory output_dir project_name w = (Ok pd, w1) ->
  exists f1 f2 f3,
    pd = match output_dir with None => OS.getcwd (fs w) | Some d => d end
         // project_name
    /\ OS.mkdir_parents (fs w) pd = (Ok tt, f1)
    /\ OS.touch f1 (pd // ".write_test") = (Ok tt, f2)
    /\ OS.unlink f2 (pd // ".write_test") = (Ok tt, f3)
    /\ w1 = mkworld f3 (stdout w).
Proof.
  unfold validate_output_directory. intros H.
  apply bind_inv_Ok in H as [f [w0 [Hf H]]].
  inversion Hf; subst f w0. clear Hf.
  set (pdir := match output_dir with None => OS.getcwd (fs w) | Some d => d end
               // project_name) in *.
  apply bind_inv_Ok in H as [[] [wa [Hmk H]]].
  apply bind_inv_Ok in H as [[] [wb [Hprobe H]]].
  inversion H; subst pd wb. clear H.
  apply try_except_inv in Hmk
    as [[[] [Hmk _]] | [[e [w' [hh [_ [He Hh]]]]] | [e [_ [_ Hx]]]]];
    [| | discriminate Hx].
  2:{ repeat case_match; simplify_eq. }
  apply call_inv in Hmk as [f1 [Hmk ->]].
  apply try_except_inv in Hprobe
    as [[[] [Hp _]] | [[e [w' [hh [_ [He Hh]]]]] | [e [_ [_ Hx]]]]];
    [| | discriminate Hx].
  2:{ repeat case_match; simplify_eq. }
  apply bind_inv_Ok in Hp as [[] [wt [Ht Hu]]].
  apply call_inv in Ht as [f2 [Ht ->]].
  apply call_inv in Hu as [f3 [Hu ->]].
  exists f1, f2, f3. simpl in *. repeat split; try assumption.
Qed.

(** C8, as amended.  Whenever the validation of the output directory
    succeeds, running it again at once, on the same path and project
    name, succeeds too, returns the same project directory, and leaves
    the whole world, so every entry of the file system, as the first run
    left it; the project directory exists after the first run and is
    accepted as it is by the second. *)
Theorem output_directory_idempotent (output_dir : option PurePath.t)
    (project_name : string) (w w1 : world) (pd : PurePath.t) :
  validate_output_directory output_dir project_name w = (Ok pd, w1) ->
  validate_output_directory output_dir project_name w1 = (Ok pd, w1)
  /\ OS.is_dir (fs w1) pd = true
  /\ OS.mkdir_parents (fs w1) pd = (Ok tt, fs w1).
Proof.
  intros H.
  apply validate_output_directory_inv_Ok in H
    as (f1 & f2 & f3 & Hpd & Hmk & Ht & Hu & ->).
  pose proof (mkdir_parents_settled _ _ _ Hmk) as [Hdir Hup].
  pose proof (mkdir_parents_rev_cwd _ _ _ _ _ Hmk) as Hcwd1.
  pose proof (probe_inv _ _ _ _ Ht Hu) as (Hcwd3 & Hwr & Hnodes & Hw & Hfree).
  assert (Hkey : OS.key f3 pd = OS.key f1 pd).
  { unfold OS.key. now rewrite Hcwd3. }
  assert (Hne : OS.key f1 pd <> (OS.key f1 pd ++ [".write_test"])%list).
  { intros Heq. apply (f_equal (@List.length string)) in Heq.
    rewrite length_app in Heq. simpl in Heq. lia. }
  assert (Hne' : List.removelast (OS.key f1 pd)
                 <> (OS.key f1 pd ++ [".write_test"])%list).
  { intros Heq. apply (f_equal (@List.length string)) in Heq.
    rewrite length_app in Heq. simpl in Heq.
    destruct (OS.key f1 pd) as [| x l] eqn:Hk; [simpl in Heq; lia |].
    assert (Hx : x :: l <> []) by discriminate.
    destruct (exists_last Hx) as [l' [y Hl]]. rewrite Hl in Heq.
    rewrite removelast_last, length_app in Heq. simpl in Heq. lia. }
  assert (Hnode : forall k, k <> (OS.key f1 pd ++ [".write_test"])%list ->
                            OS.node f3 k = OS.node f1 k).
  { intros k Hk. destruct k as [| x l]; [reflexivity |].
    simpl. rewrite Hnodes. now apply lookup_delete_ne. }
  assert (Hsettled : settled f3 pd).
  { unfold settled. rewrite Hkey, !Hnode by assumption.
    split; assumption. }
  assert (Hstable : OS.mkdir_parents f3 pd = (Ok tt, f3))
    by (apply mkdir_parents_stable, Hsettled).
  destruct (probe_again f3 pd) as [f4 [Ht' Hu']].
  { rewrite Hkey, Hnodes. apply lookup_delete_eq. }
  { apply Hsettled. }
  { rewrite Hkey, Hwr. exact Hw. }
  { exact Hfree. }
  split; [| split; [apply bool_decide_eq_true, Hsettled | exact Hstable]].
  unfold validate_output_directory.
  unfold bind at 1. unfold get_fs at 1. cbv beta iota. simpl fs.
  assert (Hsame : match output_dir with None => OS.getcwd f3 | Some d => d end
                  // project_name = pd).
  { rewrite Hpd. destruct output_dir; [reflexivity |].
    unfold OS.getcwd. simpl. now rewrite Hcwd3, Hcwd1. }
  rewrite Hsame.
  erewrite bind_Ok.
  2:{ apply try_except_Ok. apply call_run. simpl. exact Hstable. }
  erewrite bind_Ok.
  2:{ apply try_except_Ok. erewrite bind_Ok.
      2:{ apply call_run. simpl. exact Ht'. }
      apply call_run. simpl. exact Hu'. }
  reflexivity.
Qed.

Lemma output_directory_idempotent_witness :
  validate_output_directory (Some (Path "out")) "proj" example_world
  = (Ok (Path "out" // "proj"), example_validated)
  /\ validate_output_directory (Some (Path "out")) "proj" example_validated
     = (Ok (Path "out" // "proj"), example_validated)
  /\ OS.is_dir (fs example_validated) (Path "out" // "proj") = true.
Proof.
  split; [vm_compute; reflexivity |].
  pose proof (output_directory_idempotent (Some (Path "out")) "proj"
                example_world example_validated (Path "out" // "proj")
                ltac:(vm_compute; reflexivity)) as H.
  destruct H as (H1 & H2 & _). split; [exact H1 | exact H2].
Defined.

(** C8, as stated, fails for a path under a directory the user may not
    write: the first run already raises [OutputDirectoryError]. *)
Lemma output_directory_idempotent_counterexample :
  validate_output_directory (Some (Path "/ro")) "proj" example_world
  = (Raise (OutputDirectoryError "/ro/proj"
              "Permission denied - cannot create directory"),
     example_world).
Proof. vm_compute. reflexivity. Qed.

(** ** The scaffold resolver against the scaffold validator *)

(** Where the two functions agree that the argument is an inline
    sequence (it does not look like a file and names no existing path),
    a validated argument resolves to its upper-case form, and every
    character of that form is in ATGCU. *)
Lemma resolved_inline_scaffold_valid (s project : string) (v : option (list Z))
    (w w1 : world) :
  looks_like_file (ScafStr s) = false ->
  OS.exists_ (fs w) (Path s) = false ->
  validate_scaffold_sequence (Some (ScafStr s)) project w = (Ok tt, w1) ->
  s <> "M13.txt"
  /\ _process_scaffold_sequence (Some (ScafStr s)) project v w
     = (Ok (Str (PyStr.upper s), Str project), w)
  /\ (forall c, In c (PyStr.chars (PyStr.upper s)) -> PyStr.mem c valid_bases = true).
Proof.
  intros Hinline Hex Hval.
  assert (Hne : s <> "M13.txt") by (intros ->; discriminate Hinline).
  split; [exact Hne |].
  assert (Hdef : is_default_scaffold (Some (ScafStr s)) = false)
    by (apply bool_decide_eq_false_2, Hne).
  unfold validate_scaffold_sequence, _process_scaffold_sequence in *.
  rewrite Hdef in *.
  unfold bind, get_fs in *. cbn [scaffold_path scaffold_str] in *.
  rewrite Hinline in Hval. rewrite Hex.
  split; [reflexivity |].
  intros c Hc.
  destruct (PyStr.mem c valid_bases) eqn:Hmem; [reflexivity |].
  assert (Hin : In c (invalid_chars (PyStr.upper s)))
    by (apply invalid_chars_In; split; assumption).
  destruct (invalid_chars (PyStr.upper s)) as [| d l] eqn:Hinv; [contradiction |].
  discriminate Hval.
Qed.

(** *** A validated scaffold file resolves to its stripped content *)

Lemma append_nil_r (s : string) : s +:+ "" = s.
Proof. induction s as [| c s IH]; [reflexivity | exact (f_equal (String c) IH)]. Qed.

Lemma all_chars_append (P : ascii -> bool) (s t : string) :
  all_chars P (s +:+ t) = all_chars P s && all_chars P t.
Proof.
  induction s as [| c s IH]; [reflexivity |].
  change (P c && all_chars P (s +:+ t) = P c && all_chars P s && all_chars P t).
  rewrite IH. apply andb_assoc.
Qed.

Lemma rstrip_all_space (s : string) : all_space s = true -> PyStr.rstrip s = "".
Proof.
  induction s as [| c s IH]; [reflexivity |].
  simpl. intros H. apply andb_true_iff in H as [Hc Hs].
  rewrite (IH Hs), Hc. reflexivity.
Qed.

Lemma strip_all_space (s : string) : all_space s = true -> PyStr.strip s = "".
Proof. intros H. unfold PyStr.strip. now rewrite rstrip_all_space. Qed.

Lemma rstrip_no_space (s b : string) :
  no_space s = true -> all_space b = true -> PyStr.rstrip (s +:+ b) = s.
Proof.
  intros Hs Hb. induction s as [| c s IH].
  - apply rstrip_all_space, Hb.
  - simpl in Hs. apply andb_true_iff in Hs as [Hc Hs].
    change (PyStr.rstrip (String c (s +:+ b)) = String c s).
    simpl. rewrite (IH Hs).
    apply negb_true_iff in Hc. rewrite Hc. now destruct s.
Qed.

Lemma lstrip_no_space (s : string) : no_space s = true -> PyStr.lstrip s = s.
Proof.
  destruct s as [| c s]; [reflexivity |].
  simpl. intros H. apply andb_true_iff in H as [Hc _].
  apply negb_true_iff in Hc. now rewrite Hc.
Qed.

Lemma strip_core (s b : string) :
  no_space s = true -> all_space b = true -> PyStr.strip (s +:+ b) = s.
Proof.
  intros Hs Hb. unfold PyStr.strip.
  rewrite rstrip_no_space by assumption. now apply lstrip_no_space.
Qed.

Lemma strip_space_cons (c : ascii) (s : string) :
  PyStr.is_space c = true -> PyStr.strip (String c s) = PyStr.strip s.
Proof.
  intros Hc. unfold PyStr.strip. simpl.
  destruct (PyStr.rstrip s) as [| d r]; simpl; rewrite Hc; reflexivity.
Qed.

(** [s = a ++ strip s ++ b] with [a] and [b] made of spaces. *)
Lemma rstrip_split (s : string) :
  exists b, s = PyStr.rstrip s +:+ b /\ all_space b = true.
Proof.
  induction s as [| c s [b [Hs Hb]]]; [exists ""; split; reflexivity |].
  simpl. destruct (PyStr.rstrip s) as [| d r] eqn:Hr.
  - destruct (PyStr.is_space c) eqn:Hc.
    + exists (String c s). split; [reflexivity |].
      simpl. rewrite Hc. simpl in Hs. unfold all_space in Hb. now rewrite Hs.
    + exists b. split; [| exact Hb]. simpl in Hs. now rewrite Hs at 1.
  - exists b. split; [| exact Hb]. now rewrite Hs at 1.
Qed.

Lemma lstrip_split (s : string) :
  exists a, s = a +:+ PyStr.lstrip s /\ all_space a = true.
Proof.
  induction s as [| c s [a [Hs Ha]]]; [exists ""; split; reflexivity |].
  simpl. destruct (PyStr.is_space c) eqn:Hc.
  - exists (String c a). split.
    + change (String c s = String c (a +:+ PyStr.lstrip s)). now rewrite <- Hs.
    + simpl. rewrite Hc. exact Ha.
  - exists "". split; reflexivity.
Qed.

Lemma strip_split (s : string) :
  exists a b, s = a +:+ PyStr.strip s +:+ b
              /\ all_space a = true /\ all_space b = true.
Proof.
  destruct (rstrip_split s) as [b [Hs Hb]].
  destruct (lstrip_split (PyStr.rstrip s)) as [a [Hr Ha]].
  exists a, b. split; [| split; assumption].
  unfold PyStr.strip. rewrite <- append_assoc, <- Hr. exact Hs.
Qed.

Lemma newline_is_space : PyStr.is_space "010"%char = true.
Proof. reflexivity. Qed.

Lemma lines_all_space (s : string) :
  all_space s = true -> Forall (fun l => all_space l = true) (PyStr.lines s).
Proof.
  induction s as [| c s IH]; [constructor |].
  simpl. intros H. apply andb_true_iff in H as [Hc Hs]. specialize (IH Hs).
  destruct (Ascii.eqb c "010").
  - constructor; [simpl; now rewrite Hc | exact IH].
  - destruct (PyStr.lines s) as [| l ls]; constructor.
    + simpl. now rewrite Hc.
    + constructor.
    + simpl. rewrite Hc. apply (Forall_inv IH).
    + apply (Forall_inv_tail IH).
Qed.

Lemma join_all_space (ls : list string) :
  Forall (fun l => all_space l = true) ls ->
  PyStr.join "" (List.map PyStr.strip ls) = "".
Proof.
  induction 1 as [| l ls Hl _ IH]; [reflexivity |].
  unfold PyStr.join in *. simpl. rewrite (strip_all_space _ Hl).
  destruct (List.map PyStr.strip ls); [reflexivity | exact IH].
Qed.

Lemma join_cons (x : string) (xs : list string) :
  PyStr.join "" (x :: xs) = x +:+ PyStr.join "" xs.
Proof.
  unfold PyStr.join. simpl. destruct xs; [now rewrite append_nil_r | reflexivity].
Qed.

(** The first line of [core ++ b] holds [core]; the other lines are made
    of spaces. *)
Lemma lines_core (core b : string) :
  core <> "" -> no_space core = true -> all_space b = true ->
  exists b1 ls,
    PyStr.lines (core +:+ b) = (core +:+ b1) :: ls
    /\ all_space b1 = true
    /\ Forall (fun l => all_space l = true) ls.
Proof.
  intros Hne Hcore Hb. induction core as [| c core IH]; [congruence |].
  simpl in Hcore. apply andb_true_iff in Hcore as [Hc Hcore].
  assert (Hnl : Ascii.eqb c "010" = false).
  { destruct (Ascii.eqb_spec c "010") as [-> | _]; [discriminate Hc | reflexivity]. }
  change (PyStr.lines (String c core +:+ b))
    with (if Ascii.eqb c "010" then String c "" :: PyStr.lines (core +:+ b)
          else match PyStr.lines (core +:+ b) with
               | [] => [String c ""]
               | l :: ls => String c l :: ls
               end).
  rewrite Hnl.
  destruct core as [| d core].
  - pose proof (lines_all_space b Hb) as Hall.
    change ("" +:+ b) with b.
    destruct (PyStr.lines b) as [| l ls].
    + exists "", []. repeat split. constructor.
    + exists l, ls. repeat split; [apply (Forall_inv Hall) | apply (Forall_inv_tail Hall)].
  - destruct (IH ltac:(discriminate) Hcore) as (b1 & ls & Hl & Hb1 & Hls).
    rewrite Hl. exists b1, ls. repeat split; assumption.
Qed.

Lemma lines_space_cons (c : ascii) (s : string) :
  PyStr.is_space c = true ->
  PyStr.join "" (List.map PyStr.strip (PyStr.lines (String c s)))
  = PyStr.join "" (List.map PyStr.strip (PyStr.lines s)).
Proof.
  intros Hc. simpl. destruct (Ascii.eqb c "010").
  - simpl List.map. rewrite join_cons.
    rewrite (strip_all_space (String c "")) by (simpl; now rewrite Hc).
    reflexivity.
  - destruct (PyStr.lines s) as [| l ls].
    + simpl List.map. rewrite (strip_all_space (String c "")) by (simpl; now rewrite Hc).
      reflexivity.
    + simpl List.map. rewrite !join_cons, strip_space_cons by exact Hc. reflexivity.
Qed.

(** Joining the stripped lines of [a ++ core ++ b] gives [core]. *)
Lemma join_stripped_lines (a core b : string) :
  core <> "" -> no_space core = true ->
  all_space a = true -> all_space b = true ->
  PyStr.join "" (List.map PyStr.strip (PyStr.lines (a +:+ core +:+ b))) = core.
Proof.
  intros Hne Hcore Ha Hb. induction a as [| c a IH].
  - destruct (lines_core core b Hne Hcore Hb) as (b1 & ls & Hl & Hb1 & Hls).
    change ("" +:+ core +:+ b) with (core +:+ b). rewrite Hl.
    simpl List.map. rewrite join_cons, strip_core, join_all_space by assumption.
    apply append_nil_r.
  - simpl in Ha. apply andb_true_iff in Ha as [Hc Ha].
    change (String c a +:+ core +:+ b) with (String c (a +:+ core +:+ b)).
    rewrite lines_space_cons by exact Hc. exact (IH Ha).
Qed.

Lemma space_outside_alphabet (c : ascii) :
  PyStr.is_space c = true -> PyStr.mem (PyStr.upper_char c) valid_bases = false.
Proof.
  destruct c as [[] [] [] [] [] [] [] []]; intros H;
    first [reflexivity | discriminate H].
Qed.

Lemma valid_chars_no_space (s : string) :
  invalid_chars (PyStr.upper s) = [] -> no_space s = true.
Proof.
  intros Hinv.
  assert (Hall : forall c, In c (PyStr.chars s) ->
                           PyStr.mem (PyStr.upper_char c) valid_bases = true).
  { intros c Hc.
    destruct (PyStr.mem (PyStr.upper_char c) valid_bases) eqn:Hm; [reflexivity |].
    assert (Hin : In (PyStr.upper_char c) (invalid_chars (PyStr.upper s))).
    { apply invalid_chars_In. split; [| exact Hm].
      rewrite chars_upper. apply in_map, Hc. }
    rewrite Hinv in Hin. contradiction. }
  clear Hinv. induction s as [| c s IH]; [reflexivity |].
  simpl. apply andb_true_iff. split.
  - destruct (PyStr.is_space c) eqn:Hsp; [| reflexivity].
    pose proof (Hall c (or_introl eq_refl)) as Hc.
    rewrite (space_outside_alphabet c Hsp) in Hc. discriminate Hc.
  - apply IH. intros d Hd. apply Hall. right. exact Hd.
Qed.

(** Where the two functions agree that the argument is a file (it looks
    like one and the path exists), a validated argument resolves to the
    stripped content of the file in upper case, which is not empty and
    has every character in ATGCU. *)
Lemma resolved_file_scaffold_valid (a : scaffold_arg) (project : string)
    (v : option (list Z)) (w w1 : world) :
  is_default_scaffold (Some a) = false ->
  looks_like_file a = true ->
  validate_scaffold_sequence (Some a) project w = (Ok tt, w1) ->
  exists text,
    OS.read_text (fs w) (scaffold_path a) = Ok text
    /\ PyStr.strip text <> ""
    /\ _process_scaffold_sequence (Some a) project v w
       = (Ok (Str (PyStr.upper (PyStr.strip text)), Str project), w)
    /\ (forall c, In c (PyStr.chars (PyStr.upper (PyStr.strip text))) ->
                  PyStr.mem c valid_bases = true).
Proof.
  intros Hdef Hlook Hval.
  unfold validate_scaffold_sequence in Hval. rewrite Hdef in Hval.
  apply bind_inv_Ok in Hval as [f [w0 [Hf Hval]]].
  inversion Hf; subst f w0. clear Hf. rewrite Hlook in Hval.
  apply bind_inv_Ok in Hval as [[] [w0 [Hex Hval]]].
  apply raise_if_inv_Ok in Hex as [Hex ->]. apply negb_false_iff in Hex.
  apply try_except_inv in Hval
    as [[[] [Hbody _]] | [[e [w' [hh [_ [He Hh]]]]] | [e [_ [_ Hx]]]]];
    [| | discriminate Hx].
  2:{ destruct (is_builtin CPermissionError e); simplify_eq. }
  apply bind_inv_Ok in Hbody as [text [w0 [Hread Hbody]]].
  unfold OS.query in Hread. inversion Hread as [[Hread' Hw]]. subst w0.
  apply bind_inv_Ok in Hbody as [[] [w0 [Hempty Hbody]]].
  apply raise_if_inv_Ok in Hempty as [Hempty ->].
  apply raise_if_inv_Ok in Hbody as [Hinv _].
  apply bool_decide_eq_false in Hempty.
  apply negb_false_iff, bool_decide_eq_true in Hinv.
  exists text. split; [exact Hread' |]. split; [exact Hempty |].
  pose proof (valid_chars_no_space _ Hinv) as Hcore.
  destruct (strip_split text) as (pre & post & Htext & Hpre & Hpost).
  split.
  - unfold _process_scaffold_sequence. rewrite Hdef.
    unfold bind, get_fs. rewrite Hex. unfold OS.query. rewrite Hread'.
    rewrite Htext at 1.
    rewrite (join_stripped_lines pre (PyStr.strip text) post Hempty Hcore Hpre Hpost).
    reflexivity.
  - intros c Hc.
    destruct (PyStr.mem c valid_bases) eqn:Hm; [reflexivity |].
    assert (Hin : In c (invalid_chars (PyStr.upper (PyStr.strip text))))
      by (apply invalid_chars_In; split; assumption).
    rewrite Hinv in Hin. contradiction.
Qed.

(** C6 fails on the code.  The argument GATTACA has neither a slash nor a
    suffix, so [validate_scaffold_sequence] checks it as an inline
    sequence and accepts it.  A file of that name exists in the working
    directory, so [_process_scaffold_sequence] reads the file, which the
    validator never looked at, and resolves the scaffold to HELLO!, whose
    characters E, H, L, O and ! are outside ATGCU.  [design_structure]
    then hands this sequence to the cage design and returns. *)
Theorem resolved_scaffold_unvalidated :
  OS.exists_ example_fs (Path "GATTACA") = true
  /\ looks_like_file (ScafStr "GATTACA") = false
  /\ validate_scaffold_sequence (Some (ScafStr "GATTACA")) "proj" example_world
     = (Ok tt, example_world)
  /\ _process_scaffold_sequence (Some (ScafStr "GATTACA")) "proj" None example_world
     = (Ok (Str "HELLO!", Str "proj"), example_world)
  /\ truthy (Str "HELLO!") = true
  /\ invalid_chars (PyStr.upper "HELLO!")
     = ["!"%char; "E"%char; "H"%char; "L"%char; "O"%char]
  /\ (design_structure example_engine_echo example_request_named_file example_world).1
     = Ok (DesignResult_init "proj" "out/proj" "HELLO!").
Proof. repeat split; vm_compute; reflexivity. Qed.
